(** * EOG event detection: a shallow embedding of [EOG程式.py]

    The program reads a spreadsheet with two voltage channels, smooths both
    with a centred moving average, reads baselines and trigger levels from
    the first row, and scans the samples once with a small state machine
    that emits (start, end, type, direction) tuples.

    Numbers.  The program computes with IEEE doubles.  Here a cell value is
    either missing ([NaN]) or an exact rational ([Fin q]); arithmetic on
    present values is exact, every operation propagates [NaN], and every
    comparison with [NaN] is false, as in Python.  Rounding and infinities
    are outside the model.  Times are built from row indices and are never
    missing, so they are plain rationals. *)

From Stdlib Require Import QArith Qabs Qminmax Lqa ZArith Arith Lia Bool String Ascii List.
From Stdlib Require Floats Uint63.
Import ListNotations.

Local Open Scope Q_scope.

(** ** Numbers with a missing value *)

Inductive num : Type :=
| NaN
| Fin (q : Q).

Definition Qltb (x y : Q) : bool := negb (Qle_bool y x).

Definition nsub (a b : num) : num :=
  match a, b with
  | Fin x, Fin y => Fin (x - y)
  | _, _ => NaN
  end.

Definition nmul (a b : num) : num :=
  match a, b with
  | Fin x, Fin y => Fin (x * y)
  | _, _ => NaN
  end.

Definition nabs (a : num) : num :=
  match a with
  | Fin x => Fin (Qabs x)
  | NaN => NaN
  end.

(** [a >= b], [a <= b], [a > b], [a < b]: false as soon as one side is missing. *)
Definition nge (a b : num) : bool :=
  match a, b with
  | Fin x, Fin y => Qle_bool y x
  | _, _ => false
  end.

Definition nle (a b : num) : bool :=
  match a, b with
  | Fin x, Fin y => Qle_bool x y
  | _, _ => false
  end.

Definition ngt (a b : num) : bool :=
  match a, b with
  | Fin x, Fin y => Qltb y x
  | _, _ => false
  end.

Definition nlt (a b : num) : bool :=
  match a, b with
  | Fin x, Fin y => Qltb x y
  | _, _ => false
  end.

(** ** Exceptions *)

Inductive exn : Type :=
| ValueError (msg : string)
| IndexError
| TypeError.

Inductive result (A : Type) : Type :=
| Ok (a : A)
| Raise (e : exn).

Arguments Ok {A} a.
Arguments Raise {A} e.

Definition bind {A B : Type} (r : result A) (k : A -> result B) : result B :=
  match r with
  | Ok a => k a
  | Raise e => Raise e
  end.

Notation "x <- r ;; k" := (bind r (fun x => k))
  (at level 61, r at next level, right associativity).

(** ** The smoother: [data.rolling(window=window_size, center=True).mean()]

    pandas' fixed-window indexer gives sample [i] the half-open slice
    [start, end) with [end = i + 1 + (window - 1) // 2] and
    [start = end - window], both clipped to [0, n].  The mean is taken over
    the present values of the slice and is missing unless their count
    reaches [min_periods], which defaults to the window size. *)

Definition observations (w : list num) : list Q :=
  flat_map (fun x => match x with Fin q => [q] | NaN => [] end) w.

Definition Qsum (l : list Q) : Q := fold_right Qplus 0 l.

Definition roll_mean (min_periods : nat) (w : list num) : num :=
  let obs := observations w in
  let nobs := length obs in
  if (min_periods <=? nobs)%nat && (0 <? nobs)%nat
  then Fin (Qsum obs / inject_Z (Z.of_nat nobs))
  else NaN.

Definition window_slice (data : list num) (window_size i : nat) : list num :=
  let n := length data in
  let offset := ((window_size - 1) / 2)%nat in
  let e := Nat.min (i + 1 + offset) n in
  let s := Nat.min (i + 1 + offset - window_size) n in
  firstn (e - s) (skipn s data).

Definition moving_average (data : list num) (window_size : nat) : list num :=
  map (fun i => roll_mean window_size (window_slice data window_size i))
      (seq 0 (length data)).

(** ** The input table

    A sheet is a header row and data rows; a cell that is empty, or lies
    beyond the end of its row, reads as missing. *)

Record table : Type := {
  columns : list string;
  rows : list (list num)
}.

(** [str.strip()] and [str.lower()] on ASCII text. *)
Definition is_space (c : ascii) : bool :=
  let n := nat_of_ascii c in
  ((9 <=? n) && (n <=? 13))%nat || ((28 <=? n) && (n <=? 32))%nat.

Fixpoint lstrip (s : string) : string :=
  match s with
  | EmptyString => EmptyString
  | String c s' => if is_space c then lstrip s' else s
  end.

Fixpoint rstrip (s : string) : string :=
  match s with
  | EmptyString => EmptyString
  | String c s' =>
      match rstrip s' with
      | EmptyString => if is_space c then EmptyString else String c EmptyString
      | r => String c r
      end
  end.

Definition strip (s : string) : string := rstrip (lstrip s).

Definition lower_ascii (c : ascii) : ascii :=
  let n := nat_of_ascii c in
  if ((65 <=? n) && (n <=? 90))%nat then ascii_of_nat (n + 32) else c.

Fixpoint lower (s : string) : string :=
  match s with
  | EmptyString => EmptyString
  | String c s' => String (lower_ascii c) (lower s')
  end.

Definition clean_columns (cols : list string) : list string :=
  map (fun c => lower (strip c)) cols.

Definition required_columns : list string :=
  [ "voltage"; "voltage_0";
    "voltage (dc voltage)"; "voltage_0 (dc voltage)";
    "voltage (positive peak)"; "voltage_0 (negative peak)";
    "voltage_0 (positive peak)" ]%string.

Definition has_column (cols : list string) (col : string) : bool :=
  existsb (String.eqb col) cols.

(** [repr] of a list of plain strings, as an f-string renders it. *)
Definition repr_str (s : string) : string := ("'" ++ s ++ "'")%string.

Definition repr_list (l : list string) : string :=
  ("[" ++ String.concat ", " (map repr_str l) ++ "]")%string.

(** colorama's [Fore.RED]: ESC [ 3 1 m. *)
Definition Fore_RED : string := String (ascii_of_nat 27) "[31m".

Definition missing_columns_message : string :=
  (Fore_RED ++ "Excel file is missing required columns: "
            ++ repr_list required_columns)%string.

Fixpoint index_of (col : string) (cols : list string) : option nat :=
  match cols with
  | [] => None
  | c :: cols' =>
      if String.eqb col c then Some 0%nat
      else option_map S (index_of col cols')
  end.

(** [data[col]]: the cells of one column, top to bottom. *)
Definition column (cols : list string) (body : list (list num)) (col : string)
  : list num :=
  match index_of col cols with
  | Some k => map (fun r => nth k r NaN) body
  | None => []
  end.

(** [series.iloc[0]] *)
Definition iloc0 (series : list num) : result num :=
  match series with
  | [] => Raise IndexError
  | x :: _ => Ok x
  end.

(** ** Parameters *)

Definition time_interval : Q := 0.002.
Definition window_size : nat := 15.
Definition threshold_duration : Q := 0.4.
Definition cooldown_time : Q := 0.5.
Definition time_advance : Q := 0.05.

Definition time_of (i : nat) : Q := inject_Z (Z.of_nat i) * time_interval.

Record thresholds : Type := {
  vertical_baseline : num;
  horizontal_baseline : num;
  vertical_threshold : num;
  horizontal_threshold : num
}.

(** Lines 46-52: baselines and trigger levels from the first row. *)
Definition pick_horizontal_threshold (negative_peak positive_peak : num) : num :=
  if nlt negative_peak positive_peak then negative_peak else positive_peak.

Definition read_thresholds (cols : list string) (body : list (list num))
  : result thresholds :=
  vb <- iloc0 (column cols body "voltage (dc voltage)") ;;
  hb <- iloc0 (column cols body "voltage_0 (dc voltage)") ;;
  tv <- iloc0 (column cols body "voltage (positive peak)") ;;
  neg <- iloc0 (column cols body "voltage_0 (negative peak)") ;;
  pos <- iloc0 (column cols body "voltage_0 (positive peak)") ;;
  Ok {| vertical_baseline := vb;
        horizontal_baseline := hb;
        vertical_threshold := tv;
        horizontal_threshold := pick_horizontal_threshold neg pos |}.

(** ** The event detector (lines 61-132) *)

Inductive channel : Type :=
| horizontal
| vertical.

(** The tuple appended to [events]. *)
Record event : Type := {
  ev_start_time : Q;
  ev_end_time : Q;
  ev_event_type : string;
  ev_direction : option string
}.

(** The three series the loop reads by position. *)
Record frame : Type := {
  time : list Q;
  voltage_smooth : list num;
  voltage_0_smooth : list num
}.

(** The loop's variables.  [events] grows at its tail. *)
Record state : Type := {
  events : list event;
  start_time : option Q;
  is_in_event : bool;
  last_event_end_time : option Q;
  triggering_type : option channel
}.

Definition initial_state : state :=
  {| events := [];
     start_time := None;
     is_in_event := false;
     last_event_end_time := None;
     triggering_type := None |}.

(** Line 76: [last_event_end_time and current_time < last_event_end_time +
    cooldown_time].  A float is falsy exactly when it is zero. *)
Definition in_cooldown (s : state) (current_time : Q) : bool :=
  match last_event_end_time s with
  | None => false
  | Some e => negb (Qeq_bool e 0) && Qltb current_time (e + cooldown_time)
  end.

(** The two disjuncts of line 80. *)
Definition vertical_entry (th : thresholds) (current_vertical : num) : bool :=
  nge (nabs (nsub current_vertical (vertical_baseline th)))
      (vertical_threshold th).

Definition horizontal_entry (th : thresholds) (current_horizontal : num) : bool :=
  nge (nabs (nsub current_horizontal (horizontal_baseline th)))
      (nmul (Fin 3) (horizontal_threshold th)).

(** The band tests of lines 88 and 107. *)
Definition horizontal_exit (th : thresholds) (current_horizontal : num) : bool :=
  nle (nabs (nsub current_horizontal (horizontal_baseline th)))
      (nmul (Fin 3) (horizontal_threshold th)).

Definition vertical_exit (th : thresholds) (current_vertical : num) : bool :=
  nle (nabs (nsub current_vertical (vertical_baseline th)))
      (nmul (Fin 3) (vertical_threshold th)).

(** [series.argmin()]: position of the first smallest value. *)
Fixpoint argmin_from (best : Q) (best_i i : nat) (l : list Q) : nat :=
  match l with
  | [] => best_i
  | x :: l' =>
      if Qltb x best then argmin_from x i (S i) l'
      else argmin_from best best_i (S i) l'
  end.

Definition argmin (l : list Q) : nat :=
  match l with
  | [] => 0%nat
  | x :: l' => argmin_from x 0 1 l'
  end.

(** [(data['time'] - end_time).abs().argmin()] *)
Definition nearest_index (d : frame) (end_time : Q) : nat :=
  argmin (map (fun t => Qabs (t - end_time)) (time d)).

Definition horizontal_direction (th : thresholds) (end_horizontal : num) : string :=
  if ngt end_horizontal (horizontal_baseline th)
  then "Looking left"%string else "Looking right"%string.

Definition vertical_direction (th : thresholds) (end_vertical : num) : string :=
  if ngt end_vertical (vertical_baseline th)
  then "Looking up"%string else "Looking down"%string.

(** Lines 98-105 and 125-132. *)
Definition record_event (s : state) (e : event) : state :=
  {| events := events s ++ [e];
     start_time := None;
     is_in_event := false;
     last_event_end_time := Some (ev_end_time e);
     triggering_type := None |}.

Definition is_channel (t : option channel) (c : channel) : bool :=
  match t, c with
  | Some horizontal, horizontal => true
  | Some vertical, vertical => true
  | _, _ => false
  end.

(** Lines 89-105.  [duration = end_time - start_time] raises a [TypeError]
    when [start_time] is [None]. *)
Definition close_horizontal (th : thresholds) (d : frame) (s : state)
    (current_time : Q) : result state :=
  let end_time := current_time - time_advance in
  match start_time s with
  | None => Raise TypeError
  | Some start =>
      let end_horizontal :=
        nth (nearest_index d end_time) (voltage_0_smooth d) NaN in
      let event_type := "Action potential"%string in
      let direction :=
        ("Horizontal: " ++ horizontal_direction th end_horizontal)%string in
      Ok (record_event s
            {| ev_start_time := start;
               ev_end_time := end_time;
               ev_event_type := event_type;
               ev_direction := Some direction |})
  end.

(** Lines 108-132. *)
Definition close_vertical (th : thresholds) (d : frame) (s : state)
    (current_time : Q) : result state :=
  let end_time := current_time - time_advance in
  match start_time s with
  | None => Raise TypeError
  | Some start =>
      let duration := end_time - start in
      let end_vertical :=
        nth (nearest_index d end_time) (voltage_smooth d) NaN in
      let end_horizontal :=
        nth (nearest_index d end_time) (voltage_0_smooth d) NaN in
      let '(event_type, direction) :=
        if Qle_bool duration threshold_duration
        then ("Blink"%string, None)
        else
          let direction :=
            ("Vertical: " ++ vertical_direction th end_vertical)%string in
          ("Action potential"%string,
           Some (if nge (nabs (nsub end_horizontal (horizontal_baseline th)))
                        (horizontal_threshold th)
                 then (direction ++ ", Horizontal: "
                         ++ horizontal_direction th end_horizontal)%string
                 else direction)) in
      Ok (record_event s
            {| ev_start_time := start;
               ev_end_time := end_time;
               ev_event_type := event_type;
               ev_direction := direction |})
  end.

(** One iteration of the loop at position [i] (lines 71-132). *)
Definition loop_body (th : thresholds) (d : frame) (i : nat) (s : state)
  : result state :=
  let current_time := nth i (time d) 0 in
  let current_vertical := nth i (voltage_smooth d) NaN in
  let current_horizontal := nth i (voltage_0_smooth d) NaN in
  if in_cooldown s current_time then Ok s
  else if vertical_entry th current_vertical
          || horizontal_entry th current_horizontal then
    if negb (is_in_event s) then
      Ok {| events := events s;
            start_time := Some current_time;
            is_in_event := true;
            last_event_end_time := last_event_end_time s;
            triggering_type :=
              Some (if horizontal_entry th current_horizontal
                    then horizontal else vertical) |}
    else Ok s
  else if is_in_event s then
    if is_channel (triggering_type s) horizontal
       && horizontal_exit th current_horizontal then
      close_horizontal th d s current_time
    else if is_channel (triggering_type s) vertical
            && vertical_exit th current_vertical then
      close_vertical th d s current_time
    else Ok s
  else Ok s.

(** [for i in range(k)] from state [s]. *)
Definition loop_from (th : thresholds) (d : frame) (s : state) (k : nat)
  : result state :=
  fold_left (fun r i => s' <- r ;; loop_body th d i s') (seq 0 k) (Ok s).

(** The state after the first [k] iterations. *)
Definition detect_upto (th : thresholds) (d : frame) (k : nat) : result state :=
  loop_from th d initial_state k.

Definition detect (th : thresholds) (d : frame) : result (list event) :=
  s <- detect_upto th d (length (time d)) ;; Ok (events s).

(** ** [analyze_and_plot], up to the list of events it prints and shades *)

Definition make_frame (cols : list string) (body : list (list num)) : frame :=
  {| time := map time_of (seq 0 (length body));
     voltage_smooth := moving_average (column cols body "voltage") window_size;
     voltage_0_smooth :=
       moving_average (column cols body "voltage_0") window_size |}.

Definition analyze (t : table) : result (list event) :=
  let cols := clean_columns (columns t) in
  if negb (forallb (has_column cols) required_columns)
  then Raise (ValueError missing_columns_message)
  else
    let d := make_frame cols (rows t) in
    th <- read_thresholds cols (rows t) ;;
    detect th d.

(** ** Vocabulary for the statements *)

Definition sample_time (d : frame) (i : nat) : Q := nth i (time d) 0.
Definition sample_vertical (d : frame) (i : nat) : num :=
  nth i (voltage_smooth d) NaN.
Definition sample_horizontal (d : frame) (i : nat) : num :=
  nth i (voltage_0_smooth d) NaN.

(** The test of line 80 at sample [i]. *)
Definition entry_condition (th : thresholds) (d : frame) (i : nat) : bool :=
  vertical_entry th (sample_vertical d i)
  || horizontal_entry th (sample_horizontal d i).

(** What the [elif] of line 86 asks of sample [i] before an open event of
    either kind is closed. *)
Definition vertical_close (th : thresholds) (d : frame) (i : nat) : bool :=
  negb (entry_condition th d i) && vertical_exit th (sample_vertical d i).

Definition horizontal_close (th : thresholds) (d : frame) (i : nat) : bool :=
  negb (entry_condition th d i) && horizontal_exit th (sample_horizontal d i).

Definition close_condition (th : thresholds) (d : frame) (i : nat)
    (c : channel) : bool :=
  match c with
  | horizontal => horizontal_close th d i
  | vertical => vertical_close th d i
  end.

(** Iteration [j] appends [e] while the open event was triggered by [c]. *)
Definition emits (th : thresholds) (d : frame) (j : nat) (c : channel)
    (e : event) : Prop :=
  exists s s',
    detect_upto th d j = Ok s /\
    loop_body th d j s = Ok s' /\
    is_in_event s = true /\
    triggering_type s = Some c /\
    events s' = events s ++ [e].

(** [e] starts at sample [i] and is closed at the later sample [j < k]. *)
Definition spans (th : thresholds) (d : frame) (k : nat) (e : event) : Prop :=
  exists i j,
    (i < j < k)%nat /\
    entry_condition th d i = true /\
    ev_start_time e = time_of i /\
    ev_end_time e = time_of j - time_advance.

(** The next start lies after the closing sample of the previous event and,
    unless that event ended at exactly zero, a cooldown after its end. *)
Definition gap (e : event) (next_start : Q) : Prop :=
  ev_end_time e + time_advance < next_start /\
  (~ ev_end_time e == 0 -> ev_end_time e + cooldown_time <= next_start).

Fixpoint gaps (l : list event) : Prop :=
  match l with
  | e1 :: ((e2 :: _) as l') => gap e1 (ev_start_time e2) /\ gaps l'
  | _ => True
  end.

Definition last_event (l : list event) : option event :=
  match rev l with
  | [] => None
  | e :: _ => Some e
  end.

(** The loop invariant after [k] iterations. *)
Definition invariant (th : thresholds) (d : frame) (k : nat) (s : state) : Prop :=
  Forall (spans th d k) (events s) /\
  gaps (events s) /\
  last_event_end_time s = option_map ev_end_time (last_event (events s)) /\
  (is_in_event s = true ->
   exists i c,
     (i < k)%nat /\
     entry_condition th d i = true /\
     start_time s = Some (time_of i) /\
     triggering_type s = Some c /\
     (forall e, last_event (events s) = Some e -> gap e (time_of i))).

(** A frame whose time column is the one line 38 builds. *)
Definition timed (d : frame) : Prop :=
  forall i, (i < length (time d))%nat -> sample_time d i = time_of i.

(** [s] occurs in [msg]. *)
Definition includes (msg s : string) : Prop :=
  exists a b, msg = (a ++ s ++ b)%string.

(** ** Sample sheets *)

Definition sheet_columns : list string :=
  [ "Voltage"; "Voltage_0"; " Voltage (DC voltage)"; "Voltage_0 (DC voltage) ";
    "Voltage (Positive peak)"; "Voltage_0 (Negative peak)";
    "Voltage_0 (Positive peak)" ]%string.

(** A sheet whose first row carries the five measurement cells [m] and whose
    later rows carry the two channels only. *)
Definition sheet (m : list Q) (v h : list Q) : table :=
  {| columns := sheet_columns;
     rows :=
       match combine v h with
       | [] => []
       | (v0, h0) :: r =>
           (Fin v0 :: Fin h0 :: map Fin m)
             :: map (fun p => [Fin (fst p); Fin (snd p)]) r
       end |}.

(** Baselines 0, vertical trigger 1, horizontal peaks 1 and 1. *)
Definition unit_measurements : list Q := [0; 0; 1; 1; 1].
Definition unit_thresholds : thresholds :=
  {| vertical_baseline := Fin 0;
     horizontal_baseline := Fin 0;
     vertical_threshold := Fin 1;
     horizontal_threshold := Fin 1 |}.

Definition sheet_frame (t : table) : frame :=
  make_frame (clean_columns (columns t)) (rows t).

(** Vertical channel at 2 for rows 0-14, then 0: the smoothed channel is
    at or above 1 on rows 7-14 only. *)
Definition short_pulse_sheet : table :=
  sheet unit_measurements (repeat 2 15 ++ repeat 0 15) (repeat 0 30).

(** Vertical channel at 2 for rows 0-24 and 40-79: the smoothed channel is
    at or above 1 on rows 7-24 and 40-79. *)
Definition double_pulse_sheet : table :=
  sheet unit_measurements
        (repeat 2 25 ++ repeat 0 15 ++ repeat 2 40 ++ repeat 0 20)
        (repeat 0 100).

(** Vertical channel at 2 for rows 0-300. *)
Definition long_vertical_sheet : table :=
  sheet unit_measurements (repeat 2 301 ++ repeat 0 49) (repeat 0 350).

(** The one event the program reports for it. *)
Definition long_vertical_event : event :=
  {| ev_start_time := 0.014;
     ev_end_time := 0.55200;
     ev_event_type := "Action potential";
     ev_direction := Some "Vertical: Looking up"%string |}.

(** The event reported for [short_pulse_sheet]: opened at row 7, closed at
    row 15. *)
Definition short_pulse_event : event :=
  {| ev_start_time := 0.014;
     ev_end_time := -0.02000;
     ev_event_type := "Blink";
     ev_direction := None |}.

(** The events reported for [double_pulse_sheet]: rows 7 to 25 and rows 40
    to 80. *)
Definition first_pulse_event : event :=
  {| ev_start_time := 0.014;
     ev_end_time := 0.00000;
     ev_event_type := "Blink";
     ev_direction := None |}.

Definition second_pulse_event : event :=
  {| ev_start_time := 0.080;
     ev_end_time := 0.11000;
     ev_event_type := "Blink";
     ev_direction := None |}.

(** A first row whose negative peak is recorded with its sign. *)
Definition signed_peaks_sheet : table :=
  sheet [0; 0; 1; -2; 1] (repeat 0 20) (repeat 0 20).

(** A sheet without the column of the negative peak. *)
Definition missing_column_sheet : table :=
  {| columns :=
       [ "Voltage"; "Voltage_0"; "Voltage (DC voltage)";
         "Voltage_0 (DC voltage)"; "Voltage (Positive peak)";
         "Voltage_0 (Positive peak)" ]%string;
     rows := [[Fin 2; Fin 0; Fin 0; Fin 0; Fin 1; Fin 1]] |}.

(** Both channels beyond their entry levels from the first row on. *)
Definition both_channels_sheet : table :=
  sheet unit_measurements (repeat 2 30) (repeat 4 30).

(** The state in which an event opened at row 7 by channel [c] is the only
    thing that has happened. *)
Definition open_state (c : channel) : state :=
  {| events := [];
     start_time := Some 0.014;
     is_in_event := true;
     last_event_end_time := None;
     triggering_type := Some c |}.

(** Vertical channel at 4 for rows 0-30: smoothed, it is 4 until row 23,
    at most 3 from row 27 and below 1 from row 35. *)
Definition vertical_pulse_sheet : table :=
  sheet unit_measurements (repeat 4 31 ++ repeat 0 29) (repeat 0 60).

(** The same vertical channel, with the horizontal channel at 9 from row 31
    on: smoothed, it is at least 3 from row 28. *)
Definition vertical_then_horizontal_sheet : table :=
  sheet unit_measurements (repeat 4 31 ++ repeat 0 29)
        (repeat 0 31 ++ repeat 9 29).

(** Horizontal channel at 4 for rows 0-30: smoothed, it is above 3 until
    row 26 and below 3 from row 27. *)
Definition horizontal_pulse_sheet : table :=
  sheet unit_measurements (repeat 0 60) (repeat 4 31 ++ repeat 0 29).

(** The same horizontal channel, with the vertical channel at 2 from row 27
    on: smoothed, it is at least 1 from row 27. *)
Definition horizontal_then_vertical_sheet : table :=
  sheet unit_measurements (repeat 0 27 ++ repeat 2 33)
        (repeat 4 31 ++ repeat 0 29).

(** The event reported for [vertical_pulse_sheet]: rows 7 to 35. *)
Definition vertical_pulse_event : event :=
  {| ev_start_time := 0.014;
     ev_end_time := 0.02000;
     ev_event_type := "Blink";
     ev_direction := None |}.

(** The event reported for [horizontal_pulse_sheet]: rows 7 to 27. *)
Definition horizontal_pulse_event : event :=
  {| ev_start_time := 0.014;
     ev_end_time := 0.00400;
     ev_event_type := "Action potential";
     ev_direction := Some "Horizontal: Looking right"%string |}.

(** ** The plot and the event log (lines 139-158)

    [format_3f] stands for Python's [format(x, ".3f")] on a float. *)

Definition Fore_YELLOW : string := String (ascii_of_nat 27) "[33m".

(** Line 141: the colour of the shaded span. *)
Definition span_color (e : event) : string :=
  if String.eqb (ev_event_type e) "Blink" then "yellow"%string
  else "blue"%string.

(** [f"{direction}"] for a direction that may be [None]. *)
Definition str_of_direction (direction : option string) : string :=
  match direction with
  | Some s => s
  | None => "None"%string
  end.

(** Lines 154-157: the line printed for one event. *)
Definition event_line (format_3f : Q -> string) (e : event) : string :=
  if String.eqb (ev_event_type e) "Blink" then
    (Fore_YELLOW ++ "Event: " ++ ev_event_type e
       ++ " - Start: " ++ format_3f (ev_start_time e)
       ++ "s, End: " ++ format_3f (ev_end_time e) ++ "s")%string
  else
    (Fore_RED ++ "Event: " ++ ev_event_type e
       ++ " - Start: " ++ format_3f (ev_start_time e)
       ++ "s, End: " ++ format_3f (ev_end_time e)
       ++ "s, Direction: " ++ str_of_direction (ev_direction e))%string.

(** The direction texts lines 96 and 121-123 can build. *)
Definition direction_texts : list string :=
  [ "Horizontal: Looking left"; "Horizontal: Looking right";
    "Vertical: Looking up"; "Vertical: Looking down";
    "Vertical: Looking up, Horizontal: Looking left";
    "Vertical: Looking up, Horizontal: Looking right";
    "Vertical: Looking down, Horizontal: Looking left";
    "Vertical: Looking down, Horizontal: Looking right" ]%string.

(** ** The session loop (lines 160-194)

    The console is a list of the lines the user will type; [input] on an
    exhausted console raises [EOFError], which nothing catches.  The call
    of [analyze_and_plot] is a parameter: it returns ([None]) or raises an
    [Exception] whose text is given ([Some msg]).  The trace records what
    is handed to [print] and [input] and every call of the analysis. *)

Inductive console : Type :=
| Print (s : string)
| Input (prompt : string)
| Analyze (file_path output_plot_path : string).

Inductive ending : Type :=
| Exited
| EndOfInput.

Definition newline : string := String (ascii_of_nat 10) "".
Definition Fore_CYAN : string := String (ascii_of_nat 27) "[36m".
Definition Fore_MAGENTA : string := String (ascii_of_nat 27) "[35m".
Definition Fore_GREEN : string := String (ascii_of_nat 27) "[32m".

(** Lines 165-170, up to and including the prompt for the choice. *)
Definition menu : list console :=
  [ Print (Fore_CYAN ++ newline ++ "--- EOG Event Detection ---");
    Print (Fore_MAGENTA ++ "1. Analyze an Excel file");
    Print (Fore_MAGENTA ++ "2. Set default output path");
    Print (Fore_MAGENTA ++ "3. Exit");
    Input (Fore_YELLOW ++ "Enter your choice: ") ]%string.

(** Lines 180-183: the guarded call. *)
Definition guarded_call (analysis : string -> string -> option string)
    (file_path output_plot_path : string) : list console :=
  Analyze file_path output_plot_path ::
  match analysis file_path output_plot_path with
  | None => []
  | Some msg => [Print (Fore_RED ++ "Error: " ++ msg)%string]
  end.

(** [if default_output_path:] - [None] and the empty string are falsy. *)
Definition usable (default_output_path : option string) : option string :=
  match default_output_path with
  | Some EmptyString => None
  | other => other
  end.

(** The [while True] loop from a given default path. *)
Fixpoint session (analysis : string -> string -> option string)
    (default_output_path : option string) (inputs : list string)
  : list console * ending :=
  match inputs with
  | [] => (menu, EndOfInput)
  | choice :: rest =>
      let head := menu ++ [Print newline] in
      if String.eqb choice "1" then
        let ask_file :=
          Input (Fore_CYAN ++ "Enter the path to the Excel file: ")%string in
        match rest with
        | [] => (head ++ [ask_file], EndOfInput)
        | file_path :: rest1 =>
            match usable default_output_path with
            | Some output_plot_path =>
                let '(trace, e) := session analysis default_output_path rest1 in
                (head ++ [ask_file]
                   ++ guarded_call analysis file_path output_plot_path
                   ++ trace, e)
            | None =>
                let ask_plot :=
                  Input (Fore_CYAN
                           ++ "Enter the output path for the plot: ")%string in
                match rest1 with
                | [] => (head ++ [ask_file; ask_plot], EndOfInput)
                | output_plot_path :: rest2 =>
                    let '(trace, e) :=
                      session analysis default_output_path rest2 in
                    (head ++ [ask_file; ask_plot]
                       ++ guarded_call analysis file_path output_plot_path
                       ++ trace, e)
                end
            end
        end
      else if String.eqb choice "2" then
        let ask_default :=
          Input (Fore_CYAN
                   ++ "Enter the default output path for plots: ")%string in
        match rest with
        | [] => (head ++ [ask_default], EndOfInput)
        | path :: rest1 =>
            let '(trace, e) := session analysis (Some path) rest1 in
            (head ++ [ask_default;
                      Print (Fore_GREEN ++ "Default output path set to: "
                               ++ path)%string]
               ++ trace, e)
        end
      else if String.eqb choice "3" then
        (head ++ [Print (Fore_CYAN ++ "Exiting the program.")%string], Exited)
      else
        let '(trace, e) := session analysis default_output_path rest in
        (head ++ [Print (Fore_RED ++ "Invalid choice. Please try again.")%string]
           ++ trace, e)
  end.

(** [main]: the loop from [default_output_path = None]. *)
Definition main (analysis : string -> string -> option string)
    (inputs : list string) : list console * ending :=
  session analysis None inputs.

(** The calls of the analysis in a trace, in order. *)
Definition calls (trace : list console) : list (string * string) :=
  flat_map (fun c => match c with
                     | Analyze f o => [(f, o)]
                     | _ => []
                     end) trace.

(** A string of whitespace only. *)
Fixpoint blank (s : string) : bool :=
  match s with
  | EmptyString => true
  | String c s' => is_space c && blank s'
  end.

(** Header [c] is header [c'] up to outer whitespace and ASCII case. *)
Definition same_header (c c' : string) : Prop :=
  exists left_pad core right_pad,
    blank left_pad = true /\ blank right_pad = true /\
    c = (left_pad ++ core ++ right_pad)%string /\
    lower core = lower c'.

(** Further sample sheets. *)

(** Ten rows, both channels far beyond their entry levels. *)
Definition ten_row_sheet : table :=
  sheet unit_measurements (repeat 50 10) (repeat 50 10).

(** The header alone. *)
Definition empty_sheet : table :=
  {| columns := sheet_columns; rows := [] |}.

(** No baseline in the first row. *)
Definition no_baseline_thresholds : thresholds :=
  {| vertical_baseline := NaN;
     horizontal_baseline := NaN;
     vertical_threshold := Fin 1;
     horizontal_threshold := Fin 1 |}.

(** Two vertical pulses, rows 0-40 and 300-340. *)
Definition spaced_pulses_sheet : table :=
  sheet unit_measurements
        (repeat 2 41 ++ repeat 0 259 ++ repeat 2 41 ++ repeat 0 19)
        (repeat 0 360).

(** The events reported for it: rows 7 to 41 and rows 300 to 341. *)
Definition early_pulse_event : event :=
  {| ev_start_time := 0.014;
     ev_end_time := 0.03200;
     ev_event_type := "Blink";
     ev_direction := None |}.


(** ** Headers the model reads as the program does

    The table stands for the frame [read_excel] returns.  Two conditions
    on its labels keep [column] and [clean_columns] in step with pandas
    and Python: the text is ASCII, where [strip] and [lower] are exactly
    the functions above, and no two labels clean to the same name, so that
    [data[col]] is one column. *)

Fixpoint ascii_only (s : string) : bool :=
  match s with
  | EmptyString => true
  | String c s' => (nat_of_ascii c <? 128)%nat && ascii_only s'
  end.

Definition plain_header (cols : list string) : Prop :=
  forallb ascii_only cols = true /\ NoDup (clean_columns cols).

(** No two equal strings, by computation. *)
Fixpoint distinct (l : list string) : bool :=
  match l with
  | [] => true
  | x :: l' => negb (existsb (String.eqb x) l') && distinct l'
  end.

(** Seven required names and an eighth label that cleans to the first. *)
Definition twice_voltage_columns : list string :=
  sheet_columns ++ ["voltage "%string].

(** ** The time arithmetic in binary64

    The rational model is exact; the program is not.  The few time values
    on which the concrete runs below turn are recomputed here with the
    machine's doubles, operation by operation as lines 38, 76, 89 and 108
    perform them. *)

Module Doubles.
Import PrimFloat.
Local Open Scope float_scope.
#[local] Set Warnings "-inexact-float".

Definition time_interval : float := 0.002.
Definition cooldown_time : float := 0.5.
Definition time_advance : float := 0.05.

(** [i * time_interval] for a row index [i]. *)
Definition time_of (i : Z) : float :=
  of_uint63 (Uint63.of_Z i) * time_interval.

(** [current_time - time_advance] at row [j]. *)
Definition end_time_at (j : Z) : float := time_of j - time_advance.

(** The operands of line 76: is the end truthy, and is row [i] earlier
    than the end plus the cooldown? *)
Definition truthy (x : float) : bool := negb (eqb x 0).
Definition before_cooldown_end (i j : Z) : bool :=
  ltb (time_of i) (end_time_at j + cooldown_time).
End Doubles.

(** ** Basic facts *)

Lemma loop_from_S th d s k :
  loop_from th d s (S k) = (s' <- loop_from th d s k ;; loop_body th d k s').
Proof.
  unfold loop_from. rewrite seq_S, fold_left_app. reflexivity.
Qed.

Lemma detect_upto_S th d k :
  detect_upto th d (S k) = (s <- detect_upto th d k ;; loop_body th d k s).
Proof. apply loop_from_S. Qed.

Lemma Qltb_lt x y : Qltb x y = true <-> x < y.
Proof.
  unfold Qltb. rewrite negb_true_iff.
  split; intro H.
  - apply Qnot_le_lt. intro Hle. apply Qle_bool_iff in Hle. congruence.
  - destruct (Qle_bool y x) eqn:E; [|reflexivity].
    apply Qle_bool_iff in E. exfalso. apply (Qlt_not_le _ _ H E).
Qed.

Lemma Qltb_ge x y : Qltb x y = false <-> y <= x.
Proof.
  unfold Qltb. rewrite negb_false_iff. apply Qle_bool_iff.
Qed.

Lemma time_of_lt i j : (i < j)%nat -> time_of i < time_of j.
Proof.
  intro H. unfold time_of, time_interval, Qlt. simpl. lia.
Qed.

(** The advance of 0.05 s is 25 rows.  A closing row 26 or more rows after
    the entry row leaves the end after the start, a closing row 24 or
    fewer rows after it leaves the end before the start, each by a full
    sample interval at least; at exactly 25 rows the two coincide in the
    rationals and the doubles decide by their rounding, so nothing is said
    of that distance. *)
Lemma time_of_advance_late i j :
  (i + 26 <= j)%nat -> time_of i < time_of j - time_advance.
Proof.
  unfold time_of, time_interval, time_advance, Qlt. simpl. lia.
Qed.

Lemma time_of_advance_early i j :
  (j <= i + 24)%nat -> time_of j - time_advance < time_of i.
Proof.
  unfold time_of, time_interval, time_advance, Qlt. simpl. lia.
Qed.

(** ** What one iteration can do *)

Lemma is_channel_true t c : is_channel t c = true <-> t = Some c.
Proof.
  destruct t as [[|]|], c; simpl; split; intro H;
    try reflexivity; try discriminate; congruence.
Qed.

Lemma close_horizontal_inv th d s t s' :
  close_horizontal th d s t = Ok s' ->
  exists st e,
    start_time s = Some st /\ s' = record_event s e /\
    ev_start_time e = st /\ ev_end_time e = t - time_advance.
Proof.
  unfold close_horizontal. destruct (start_time s) as [st|]; [|discriminate].
  intro H. injection H as <-. eexists _, _. repeat split.
Qed.

Lemma close_vertical_inv th d s t s' :
  close_vertical th d s t = Ok s' ->
  exists st e,
    start_time s = Some st /\ s' = record_event s e /\
    ev_start_time e = st /\ ev_end_time e = t - time_advance.
Proof.
  unfold close_vertical. destruct (start_time s) as [st|]; [|discriminate].
  destruct (Qle_bool _ _); intro H; injection H as <-;
    eexists _, _; repeat split.
Qed.

(** An iteration leaves the state alone, opens an event, or closes the open
    one. *)
Lemma loop_body_cases th d i s s' :
  loop_body th d i s = Ok s' ->
  s' = s \/
  (in_cooldown s (sample_time d i) = false /\
   entry_condition th d i = true /\
   is_in_event s = false /\
   events s' = events s /\
   start_time s' = Some (sample_time d i) /\
   is_in_event s' = true /\
   last_event_end_time s' = last_event_end_time s /\
   triggering_type s' =
     Some (if horizontal_entry th (sample_horizontal d i)
           then horizontal else vertical)) \/
  (in_cooldown s (sample_time d i) = false /\
   is_in_event s = true /\
   exists c st e,
     triggering_type s = Some c /\
     start_time s = Some st /\
     close_condition th d i c = true /\
     s' = record_event s e /\
     ev_start_time e = st /\
     ev_end_time e = sample_time d i - time_advance).
Proof.
  unfold loop_body.
  fold (sample_time d i) (sample_vertical d i) (sample_horizontal d i).
  fold (entry_condition th d i).
  destruct (in_cooldown s (sample_time d i)) eqn:Hcd.
  { intro H; injection H as <-; now left. }
  destruct (entry_condition th d i) eqn:Hen.
  { destruct (is_in_event s) eqn:Hin; simpl; intro H; injection H as <-.
    - now left.
    - right; left. repeat split. }
  destruct (is_in_event s) eqn:Hin.
  2: { intro H; injection H as <-; now left. }
  destruct (is_channel (triggering_type s) horizontal
            && horizontal_exit th (sample_horizontal d i)) eqn:Hh.
  { apply andb_true_iff in Hh as [Hc Hx]. apply is_channel_true in Hc.
    intro H. apply close_horizontal_inv in H as (st & e & Hst & -> & Hs & He).
    right; right. repeat split.
    exists horizontal, st, e. repeat split; auto.
    simpl. unfold horizontal_close. now rewrite Hen, Hx. }
  destruct (is_channel (triggering_type s) vertical
            && vertical_exit th (sample_vertical d i)) eqn:Hv.
  { apply andb_true_iff in Hv as [Hc Hx]. apply is_channel_true in Hc.
    intro H. apply close_vertical_inv in H as (st & e & Hst & -> & Hs & He).
    right; right. repeat split.
    exists vertical, st, e. repeat split; auto.
    simpl. unfold vertical_close. now rewrite Hen, Hx. }
  intro H; injection H as <-; now left.
Qed.

(** ** The loop invariant *)

Lemma last_event_snoc l e : last_event (l ++ [e]) = Some e.
Proof. unfold last_event. rewrite rev_unit. reflexivity. Qed.

Lemma last_event_cons e l :
  last_event (e :: l) = match last_event l with Some x => Some x | None => Some e end.
Proof.
  unfold last_event. simpl. destruct (rev l); reflexivity.
Qed.

Lemma gaps_snoc l e :
  gaps l ->
  (forall e1, last_event l = Some e1 -> gap e1 (ev_start_time e)) ->
  gaps (l ++ [e]).
Proof.
  induction l as [|a l IH]; intros Hg Hl; [exact I|].
  destruct l as [|b l].
  - simpl. split; [|exact I]. apply Hl. reflexivity.
  - change ((a :: b :: l) ++ [e]) with (a :: b :: (l ++ [e])).
    destruct Hg as [Hab Hg]. split; [exact Hab|].
    apply IH; [exact Hg|].
    intros e1 H1. apply Hl. rewrite last_event_cons, H1. reflexivity.
Qed.

Lemma gaps_nth l i e1 e2 :
  gaps l -> nth_error l i = Some e1 -> nth_error l (S i) = Some e2 ->
  gap e1 (ev_start_time e2).
Proof.
  revert i. induction l as [|a l IH]; intros i Hg H1 H2.
  - destruct i; discriminate.
  - destruct l as [|b l]; [destruct i; discriminate|].
    destruct Hg as [Hab Hg]. destruct i as [|i].
    + simpl in H1, H2. injection H1 as <-. injection H2 as <-. exact Hab.
    + apply (IH i Hg H1 H2).
Qed.

Lemma spans_mono th d k k' e : (k <= k')%nat -> spans th d k e -> spans th d k' e.
Proof.
  intros Hk (i & j & Hij & H). exists i, j. split; [lia|exact H].
Qed.

Lemma invariant_initial th d : invariant th d 0 initial_state.
Proof.
  repeat split; simpl; auto. discriminate.
Qed.

Lemma invariant_mono th d k s :
  invariant th d k s -> invariant th d (S k) s.
Proof.
  intros (Hs & Hg & Hl & Hin). repeat split; auto.
  - eapply Forall_impl; [|exact Hs]. intros e. apply spans_mono. lia.
  - intro H. destruct (Hin H) as (i & c & Hi & R). exists i, c. split; [lia|exact R].
Qed.

Lemma spans_end_before th d k e :
  spans th d k e -> ev_end_time e + time_advance < time_of k.
Proof.
  intros (i & j & Hij & _ & _ & He). rewrite He.
  assert (H : time_of j < time_of k) by (apply time_of_lt; lia).
  lra.
Qed.

Lemma Forall_last_event {P : event -> Prop} l e :
  Forall P l -> last_event l = Some e -> P e.
Proof.
  intros HF Hl. rewrite Forall_forall in HF. apply HF.
  unfold last_event in Hl. apply in_rev.
  destruct (rev l); [discriminate|]. injection Hl as ->. now left.
Qed.

Lemma not_in_cooldown_gap th d k s e :
  Forall (spans th d k) (events s) ->
  last_event_end_time s = option_map ev_end_time (last_event (events s)) ->
  last_event (events s) = Some e ->
  in_cooldown s (time_of k) = false ->
  gap e (time_of k).
Proof.
  intros HF Hl He Hcd. split.
  - apply (spans_end_before th d). apply (Forall_last_event _ _ HF He).
  - intro Hnz. unfold in_cooldown in Hcd. rewrite Hl, He in Hcd. simpl in Hcd.
    destruct (Qeq_bool (ev_end_time e) 0) eqn:E.
    + apply Qeq_bool_iff in E. contradiction.
    + simpl in Hcd. apply Qltb_ge in Hcd. exact Hcd.
Qed.

Lemma invariant_step th d k s s' :
  timed d -> (k < length (time d))%nat ->
  invariant th d k s -> loop_body th d k s = Ok s' ->
  invariant th d (S k) s'.
Proof.
  intros Ht Hk Hinv Hstep.
  pose proof (Ht k Hk) as Htk.
  apply loop_body_cases in Hstep
    as [-> | [(Hcd & Hen & Hin & He & Hst & Hin' & Hl' & Htt)
             | (Hcd & Hin & c & st & e & Htt & Hst & Hcl & -> & Hes & Hee)]].
  - apply invariant_mono, Hinv.
  - destruct Hinv as (Hs & Hg & Hl & _).
    repeat split.
    + rewrite He. eapply Forall_impl; [|exact Hs].
      intros e. apply spans_mono. lia.
    + rewrite He. exact Hg.
    + rewrite Hl', He. exact Hl.
    + intros _. eexists k, _. rewrite Hst, Htk, He.
      split; [lia|]. split; [exact Hen|]. split; [reflexivity|].
      split; [exact Htt|].
      intros e Hle. eapply not_in_cooldown_gap; eauto. now rewrite <- Htk.
  - destruct Hinv as (Hs & Hg & Hl & Hopen).
    destruct (Hopen Hin) as (i & c' & Hi & Hfi & Hsi & _ & Hgi).
    rewrite Hst in Hsi. injection Hsi as ->.
    repeat split; simpl.
    + apply Forall_app. split.
      * eapply Forall_impl; [|exact Hs]. intros e0. apply spans_mono. lia.
      * constructor; [|constructor]. exists i, k. rewrite Hes, Hee, Htk.
        repeat split; auto.
    + apply gaps_snoc; [exact Hg|]. rewrite Hes. exact Hgi.
    + rewrite last_event_snoc. reflexivity.
    + discriminate.
Qed.

Lemma loop_body_no_raise th d k s :
  invariant th d k s -> exists s', loop_body th d k s = Ok s'.
Proof.
  intros (_ & _ & _ & Hopen). unfold loop_body.
  destruct (in_cooldown _ _); [eauto|].
  destruct (_ || _); [destruct (negb _); eauto|].
  destruct (is_in_event s) eqn:Hin; [|eauto].
  destruct (Hopen eq_refl) as (i & c & _ & _ & Hst & _).
  destruct (_ && _).
  { unfold close_horizontal. rewrite Hst. eauto. }
  destruct (_ && _); [|eauto].
  unfold close_vertical. rewrite Hst. destruct (Qle_bool _ _); eauto.
Qed.

(** The loop never raises, and its state satisfies the invariant. *)
Lemma detect_upto_invariant th d k :
  timed d -> (k <= length (time d))%nat ->
  exists s, detect_upto th d k = Ok s /\ invariant th d k s.
Proof.
  intros Ht. induction k as [|k IH]; intro Hk.
  - exists initial_state. split; [reflexivity|apply invariant_initial].
  - destruct IH as (s & Hs & Hinv); [lia|].
    destruct (loop_body_no_raise th d k s Hinv) as (s' & Hs').
    exists s'. split.
    + rewrite detect_upto_S, Hs. exact Hs'.
    + eapply invariant_step; eauto.
Qed.

(** ** The smoother *)

Lemma nth_map_seq {A : Type} (f : nat -> A) n i dflt :
  (i < n)%nat -> nth i (map f (seq 0 n)) dflt = f i.
Proof.
  intro H.
  rewrite (nth_indep _ dflt (f 0%nat)) by (rewrite length_map, length_seq; exact H).
  rewrite map_nth, seq_nth by exact H. reflexivity.
Qed.

Lemma length_moving_average data w :
  length (moving_average data w) = length data.
Proof.
  unfold moving_average. rewrite length_map, length_seq. reflexivity.
Qed.

Lemma nth_moving_average data w i :
  (i < length data)%nat ->
  nth i (moving_average data w) NaN = roll_mean w (window_slice data w i).
Proof.
  intro H. unfold moving_average.
  exact (nth_map_seq (fun j => roll_mean w (window_slice data w j)) _ _ _ H).
Qed.

Lemma length_observations w : (length (observations w) <= length w)%nat.
Proof.
  induction w as [|[|q] w IH]; simpl; lia.
Qed.

Lemma observations_Fin l : observations (map Fin l) = l.
Proof.
  induction l as [|x l IH]; simpl; [reflexivity|]. now rewrite IH.
Qed.

Lemma roll_mean_short w l : (length l < w)%nat -> roll_mean w l = NaN.
Proof.
  intro H. unfold roll_mean.
  pose proof (length_observations l) as Ho.
  destruct (w <=? length (observations l))%nat eqn:E; [|reflexivity].
  apply Nat.leb_le in E. lia.
Qed.

Lemma half_window h : ((2 * h + 1 - 1) / 2 = h)%nat.
Proof.
  replace (2 * h + 1 - 1)%nat with (h * 2)%nat by lia.
  apply Nat.div_mul. discriminate.
Qed.

Lemma length_window_slice data w i :
  length (window_slice data w i) =
  (Nat.min (i + 1 + (w - 1) / 2) (length data)
   - Nat.min (i + 1 + (w - 1) / 2 - w) (length data))%nat.
Proof.
  unfold window_slice. rewrite length_firstn, length_skipn. lia.
Qed.

(** At an edge position the slice is shorter than the window. *)
Lemma moving_average_edge data h i :
  (i < h \/ length data <= i + h)%nat ->
  nth i (moving_average data (2 * h + 1)) NaN = NaN.
Proof.
  intro He.
  destruct (Nat.lt_ge_cases i (length data)) as [Hi|Hi].
  - rewrite nth_moving_average by exact Hi.
    apply roll_mean_short. rewrite length_window_slice, half_window. lia.
  - apply nth_overflow. rewrite length_moving_average. exact Hi.
Qed.

Lemma window_slice_inner xs h i :
  (h <= i)%nat -> (i + h < length xs)%nat ->
  window_slice (map Fin xs) (2 * h + 1) i =
  map Fin (firstn (2 * h + 1) (skipn (i - h) xs)).
Proof.
  intros H1 H2. unfold window_slice.
  rewrite half_window, length_map, skipn_map, firstn_map.
  replace (Nat.min (i + 1 + h) (length xs)) with (i + 1 + h)%nat by lia.
  replace (Nat.min (i + 1 + h - (2 * h + 1)) (length xs)) with (i - h)%nat by lia.
  replace (i + 1 + h - (i - h))%nat with (2 * h + 1)%nat by lia.
  reflexivity.
Qed.

Lemma moving_average_inner xs h i :
  (h <= i)%nat -> (i + h < length xs)%nat ->
  nth i (moving_average (map Fin xs) (2 * h + 1)) NaN =
  Fin (Qsum (firstn (2 * h + 1) (skipn (i - h) xs))
       / inject_Z (Z.of_nat (2 * h + 1))).
Proof.
  intros H1 H2.
  rewrite nth_moving_average by (rewrite length_map; lia).
  rewrite window_slice_inner by assumption.
  unfold roll_mean. rewrite observations_Fin.
  assert (Hlen : length (firstn (2 * h + 1) (skipn (i - h) xs)) = (2 * h + 1)%nat).
  { rewrite length_firstn, length_skipn. lia. }
  rewrite Hlen.
  replace (2 * h + 1 <=? 2 * h + 1)%nat with true by (symmetry; apply Nat.leb_le; lia).
  replace (0 <? 2 * h + 1)%nat with true by (symmetry; apply Nat.ltb_lt; lia).
  reflexivity.
Qed.

Lemma Qsum_constant l c :
  (forall x, In x l -> x == c) ->
  Qsum l == inject_Z (Z.of_nat (length l)) * c.
Proof.
  induction l as [|x l IH]; intro H.
  - change (0 == 0 * c). ring.
  - change (Qsum (x :: l)) with (x + Qsum l).
    assert (Hx : x == c) by (apply H; now left).
    assert (Hl : Qsum l == inject_Z (Z.of_nat (length l)) * c)
      by (apply IH; intros y Hy; apply H; now right).
    change (length (x :: l)) with (S (length l)).
    rewrite Hx, Hl, Nat2Z.inj_succ. unfold Z.succ. rewrite inject_Z_plus.
    change (inject_Z 1) with 1. ring.
Qed.

Lemma In_window {A : Type} (l : list A) a b x :
  In x (firstn a (skipn b l)) -> In x l.
Proof.
  intro H.
  rewrite <- (firstn_skipn b l). apply in_or_app. right.
  rewrite <- (firstn_skipn a (skipn b l)). apply in_or_app. now left.
Qed.

(** ** Frames built from a sheet *)

Lemma timed_make_frame cols body : timed (make_frame cols body).
Proof.
  intros i Hi. unfold sample_time. simpl in *.
  rewrite length_map, length_seq in Hi. apply nth_map_seq. exact Hi.
Qed.

Lemma length_time_make_frame cols body :
  length (time (make_frame cols body)) = length body.
Proof. simpl. rewrite length_map, length_seq. reflexivity. Qed.

Lemma length_column_le cols body c : (length (column cols body c) <= length body)%nat.
Proof.
  unfold column. destruct (index_of c cols); simpl; [rewrite length_map|]; lia.
Qed.

(** Both smoothed channels are missing at the first and last seven rows. *)
Lemma make_frame_edges cols body i :
  (i < 7 \/ length body <= i + 7)%nat ->
  sample_vertical (make_frame cols body) i = NaN /\
  sample_horizontal (make_frame cols body) i = NaN.
Proof.
  intro H. unfold sample_vertical, sample_horizontal. simpl.
  split; apply (moving_average_edge _ 7);
    match goal with
    | |- context [column ?c ?b ?n] => pose proof (length_column_le c b n)
    end; lia.
Qed.

Lemma entry_condition_missing th d i :
  sample_vertical d i = NaN -> sample_horizontal d i = NaN ->
  entry_condition th d i = false.
Proof.
  intros Hv Hh. unfold entry_condition, vertical_entry, horizontal_entry.
  rewrite Hv, Hh. reflexivity.
Qed.

Lemma analyze_inv t evs :
  analyze t = Ok evs ->
  forallb (has_column (clean_columns (columns t))) required_columns = true /\
  exists th,
    read_thresholds (clean_columns (columns t)) (rows t) = Ok th /\
    detect th (sheet_frame t) = Ok evs.
Proof.
  unfold analyze, sheet_frame.
  destruct (forallb _ _); simpl; [|discriminate].
  destruct (read_thresholds _ _) as [th|]; simpl; [|discriminate].
  intro H. split; [reflexivity|]. exists th. split; [reflexivity|exact H].
Qed.

Lemma detect_inv th d evs :
  detect th d = Ok evs ->
  exists s, detect_upto th d (length (time d)) = Ok s /\ events s = evs.
Proof.
  unfold detect. destruct (detect_upto _ _ _) as [s|]; simpl; [|discriminate].
  intro H. injection H as <-. exists s. split; reflexivity.
Qed.

(** Every event of a run on a sheet spans two samples of the sheet, and
    consecutive events keep their distance. *)
Lemma analyze_events t evs :
  analyze t = Ok evs ->
  exists th,
    read_thresholds (clean_columns (columns t)) (rows t) = Ok th /\
    Forall (spans th (sheet_frame t) (length (rows t))) evs /\
    gaps evs.
Proof.
  intro H. apply analyze_inv in H as (_ & th & Hth & Hd).
  apply detect_inv in Hd as (s & Hs & <-).
  destruct (detect_upto_invariant th (sheet_frame t) (length (time (sheet_frame t))))
    as (s0 & Hs0 & Hinv & Hg & _).
  { apply timed_make_frame. }
  { lia. }
  rewrite Hs in Hs0. injection Hs0 as <-.
  exists th. split; [exact Hth|]. split; [|exact Hg].
  unfold sheet_frame in *. rewrite length_time_make_frame in Hinv. exact Hinv.
Qed.

Lemma has_column_In cols c : has_column cols c = true <-> In c cols.
Proof.
  unfold has_column. rewrite existsb_exists. split.
  - intros (x & Hx & He). apply String.eqb_eq in He. now subst.
  - intro H. exists c. split; [exact H|apply String.eqb_refl].
Qed.

Lemma index_of_In c cols : In c cols -> exists k, index_of c cols = Some k.
Proof.
  induction cols as [|x cols IH]; intro H; [contradiction|]. simpl.
  destruct (String.eqb c x) eqn:E; [eauto|].
  destruct H as [->|H]; [rewrite String.eqb_refl in E; discriminate|].
  destruct (IH H) as (k & ->). simpl. eauto.
Qed.

Lemma iloc0_column cols body c :
  In c cols -> body <> [] -> exists x, iloc0 (column cols body c) = Ok x.
Proof.
  intros Hc Hb. unfold column. destruct (index_of_In c cols Hc) as (k & ->).
  destruct body; [contradiction|]. simpl. eauto.
Qed.

(** With the seven columns present and at least one row, the analysis
    returns a list of events. *)
Lemma analyze_returns (t : table) :
  (forall c, In c required_columns -> In c (clean_columns (columns t))) ->
  rows t <> [] ->
  exists evs, analyze t = Ok evs.
Proof.
  intros Hcols Hrows. unfold analyze.
  assert (E : forallb (has_column (clean_columns (columns t))) required_columns
              = true).
  { apply forallb_forall. intros c Hc. apply has_column_In, Hcols, Hc. }
  rewrite E. simpl. unfold read_thresholds.
  destruct (iloc0_column _ (rows t) "voltage (dc voltage)"
              (Hcols "voltage (dc voltage)"%string ltac:(simpl; tauto)) Hrows) as (vb & ->).
  destruct (iloc0_column _ (rows t) "voltage_0 (dc voltage)"
              (Hcols "voltage_0 (dc voltage)"%string ltac:(simpl; tauto)) Hrows) as (hb & ->).
  destruct (iloc0_column _ (rows t) "voltage (positive peak)"
              (Hcols "voltage (positive peak)"%string ltac:(simpl; tauto)) Hrows) as (tv & ->).
  destruct (iloc0_column _ (rows t) "voltage_0 (negative peak)"
              (Hcols "voltage_0 (negative peak)"%string ltac:(simpl; tauto)) Hrows) as (neg & ->).
  destruct (iloc0_column _ (rows t) "voltage_0 (positive peak)"
              (Hcols "voltage_0 (positive peak)"%string ltac:(simpl; tauto)) Hrows) as (pos & ->).
  simpl. unfold detect.
  match goal with
  | |- context [detect_upto ?th ?d ?k] =>
      destruct (detect_upto_invariant th d k) as (s & -> & _);
        [apply timed_make_frame|lia|]
  end.
  simpl. eauto.
Qed.

(** ** Claims about the smoother *)

(** C8: for a sequence of numbers [xs] and an odd window [2h+1], the
    smoother returns a sequence of the same length; at every position whose
    centred window fits, the value is the arithmetic mean of the window; at
    every position whose window runs past an end, the value is missing; and
    a constant sequence is smoothed to that constant wherever the window
    fits. *)
Theorem smoother_centered_mean (xs : list Q) (h : nat) :
  let w := (2 * h + 1)%nat in
  let out := moving_average (map Fin xs) w in
  length out = length xs /\
  (forall i, (h <= i)%nat -> (i + h < length xs)%nat ->
     nth i out NaN =
     Fin (Qsum (firstn w (skipn (i - h) xs)) / inject_Z (Z.of_nat w))) /\
  (forall i, (i < length xs)%nat -> (i < h \/ length xs <= i + h)%nat ->
     nth i out NaN = NaN) /\
  (forall c i, (forall x, In x xs -> x == c) ->
     (h <= i)%nat -> (i + h < length xs)%nat ->
     exists q, nth i out NaN = Fin q /\ q == c).
Proof.
  intros w out. subst w out. repeat split.
  - rewrite length_moving_average, length_map. reflexivity.
  - intros i H1 H2. apply moving_average_inner; assumption.
  - intros i _ He. apply moving_average_edge. rewrite length_map. exact He.
  - intros c i Hc H1 H2. eexists. split.
    + apply moving_average_inner; assumption.
    + set (l := firstn (2 * h + 1) (skipn (i - h) xs)).
      assert (Hlen : length l = (2 * h + 1)%nat).
      { subst l. rewrite length_firstn, length_skipn. lia. }
      rewrite (Qsum_constant l c).
      * rewrite Hlen. field.
        unfold Qeq. simpl. lia.
      * intros x Hx. apply Hc. apply (In_window _ _ _ _ Hx).
Qed.

Lemma smoother_centered_mean_witness :
  length (moving_average (map Fin [1; 2; 3; 4; 6]) 3) = 5%nat /\
  nth 3 (moving_average (map Fin [1; 2; 3; 4; 6]) 3) NaN
  = Fin (Qsum [3; 4; 6] / inject_Z 3) /\
  nth 4 (moving_average (map Fin [1; 2; 3; 4; 6]) 3) NaN = NaN.
Proof.
  destruct (smoother_centered_mean [1; 2; 3; 4; 6] 1) as (Hl & Hi & He & _).
  split; [exact Hl|]. split.
  - apply (Hi 3%nat); simpl; lia.
  - apply (He 4%nat); simpl; lia.
Defined.

(** ** Claims about where events start and end *)

(** C10: every event of a run starts at a row [i] with at least seven rows
    before and after it; at each of the first and last seven rows both
    smoothed channels are missing, the entry test is false, and no event
    starts there. *)
Theorem no_event_starts_at_edge (t : table) (evs : list event) (e : event) :
  analyze t = Ok evs -> In e evs ->
  (exists i, (7 <= i)%nat /\ (i + 7 < length (rows t))%nat /\
             ev_start_time e = time_of i) /\
  (forall j, (j < 7 \/ length (rows t) <= j + 7)%nat ->
     sample_vertical (sheet_frame t) j = NaN /\
     sample_horizontal (sheet_frame t) j = NaN /\
     (forall th, entry_condition th (sheet_frame t) j = false) /\
     ~ ev_start_time e == time_of j).
Proof.
  intros Ha Hin.
  destruct (analyze_events t evs Ha) as (th & _ & Hsp & _).
  unfold sheet_frame in *.
  rewrite Forall_forall in Hsp.
  destruct (Hsp e Hin) as (i & j & Hij & Hen & Hs & _).
  assert (Hi : (7 <= i /\ i + 7 < length (rows t))%nat).
  { destruct (Nat.lt_ge_cases i 7) as [Hlo|Hlo];
      [|destruct (Nat.lt_ge_cases (i + 7) (length (rows t))) as [Hhi|Hhi];
        [lia|]].
    - destruct (make_frame_edges (clean_columns (columns t)) (rows t) i) as [Hv Hh];
        [lia|].
      rewrite (entry_condition_missing th _ i Hv Hh) in Hen. discriminate.
    - destruct (make_frame_edges (clean_columns (columns t)) (rows t) i) as [Hv Hh];
        [lia|].
      rewrite (entry_condition_missing th _ i Hv Hh) in Hen. discriminate. }
  split.
  - exists i. repeat split; try lia. exact Hs.
  - intros k Hk.
    destruct (make_frame_edges (clean_columns (columns t)) (rows t) k Hk) as [Hv Hh].
    repeat split; auto.
    + intro th'. apply entry_condition_missing; assumption.
    + rewrite Hs. intro Heq.
      destruct (Nat.lt_total i k) as [Hlt|[Heq'|Hlt]].
      * apply time_of_lt in Hlt. lra.
      * lia.
      * apply time_of_lt in Hlt. lra.
Qed.

Lemma no_event_starts_at_edge_witness :
  analyze long_vertical_sheet = Ok [long_vertical_event] /\
  ~ ev_start_time long_vertical_event == time_of 6 /\
  ~ ev_start_time long_vertical_event == time_of 343.
Proof.
  assert (Ha : analyze long_vertical_sheet = Ok [long_vertical_event])
    by (vm_compute; reflexivity).
  split; [exact Ha|].
  destruct (no_event_starts_at_edge long_vertical_sheet
              [long_vertical_event] long_vertical_event Ha (or_introl eq_refl))
    as (_ & He).
  split.
  - apply (He 6%nat). left. lia.
  - apply (He 343%nat). right. vm_compute. lia.
Defined.

(** C4 (as the program behaves): every event of a run starts at the time
    of a row [i] and ends 0.05 s before the time of a later row [j]; its
    end is after its start when [j] is 26 or more rows after [i]; its end
    is before its start when [j] is 24 or fewer rows after [i]; and in
    every case the end is later than 0.05 s before the start. *)
Theorem event_end_against_start (t : table) (evs : list event) (e : event) :
  analyze t = Ok evs -> In e evs ->
  exists i j,
    (i < j < length (rows t))%nat /\
    ev_start_time e = time_of i /\
    ev_end_time e = time_of j - time_advance /\
    ((i + 26 <= j)%nat -> ev_start_time e < ev_end_time e) /\
    ((j <= i + 24)%nat -> ev_end_time e < ev_start_time e) /\
    ev_start_time e - time_advance < ev_end_time e.
Proof.
  intros Ha Hin.
  destruct (analyze_events t evs Ha) as (th & _ & Hsp & _).
  rewrite Forall_forall in Hsp.
  destruct (Hsp e Hin) as (i & j & Hij & _ & Hs & He).
  exists i, j. rewrite Hs, He.
  split; [lia|]. split; [reflexivity|]. split; [reflexivity|].
  split; [apply time_of_advance_late|]. split; [apply time_of_advance_early|].
  assert (H : time_of i < time_of j) by (apply time_of_lt; lia). lra.
Qed.

Lemma event_end_against_start_witness :
  exists i j,
    (i < j < length (rows long_vertical_sheet))%nat /\
    ev_start_time long_vertical_event = time_of i /\
    ev_end_time long_vertical_event = time_of j - time_advance /\
    ((i + 26 <= j)%nat ->
     ev_start_time long_vertical_event < ev_end_time long_vertical_event) /\
    ((j <= i + 24)%nat ->
     ev_end_time long_vertical_event < ev_start_time long_vertical_event) /\
    ev_start_time long_vertical_event - time_advance
    < ev_end_time long_vertical_event.
Proof.
  apply (event_end_against_start long_vertical_sheet [long_vertical_event]).
  - vm_compute. reflexivity.
  - simpl. left. reflexivity.
Defined.

(** C4 fails as stated: a deflection that lasts eight rows is reported with
    an end 0.034 s before its start. *)
Lemma short_event_ends_before_start :
  analyze short_pulse_sheet = Ok [short_pulse_event] /\
  ev_end_time short_pulse_event < ev_start_time short_pulse_event.
Proof.
  split; vm_compute; reflexivity.
Qed.


(** C5 on a sheet whose first event is closed at row 25, so that its end
    is 25 * 0.002 - 0.05 = 0: the test of line 76 reads the zero as "no
    event yet", and the next event starts 0.08 s after that end, inside the
    cooldown of 0.5 s. *)
Theorem cooldown_skipped_after_zero_end :
  analyze double_pulse_sheet = Ok [first_pulse_event; second_pulse_event] /\
  ev_end_time first_pulse_event == 0 /\
  ev_start_time second_pulse_event
  < ev_end_time first_pulse_event + cooldown_time.
Proof.
  repeat split; vm_compute; reflexivity.
Qed.

(** ** Claims about the first row and the header *)

Lemma pick_horizontal_threshold_min x y :
  exists z, pick_horizontal_threshold (Fin x) (Fin y) = Fin z /\ z == Qmin x y.
Proof.
  unfold pick_horizontal_threshold, nlt.
  destruct (Qltb x y) eqn:E.
  - exists x. split; [reflexivity|].
    apply Qltb_lt in E. symmetry. apply Q.min_l. lra.
  - exists y. split; [reflexivity|].
    apply Qltb_ge in E. symmetry. apply Q.min_r. exact E.
Qed.

(** C3 (as the program behaves): the horizontal trigger is the
    negative-peak cell of the first row when that cell is smaller than the
    positive-peak cell, and the positive-peak cell otherwise; for two
    present values it is the minimum of the two signed values, which is the
    minimum of their magnitudes when neither is negative. *)
Theorem horizontal_trigger_is_smaller_cell (t : table) (th : thresholds) :
  read_thresholds (clean_columns (columns t)) (rows t) = Ok th ->
  exists negative_peak positive_peak,
    iloc0 (column (clean_columns (columns t)) (rows t)
                  "voltage_0 (negative peak)") = Ok negative_peak /\
    iloc0 (column (clean_columns (columns t)) (rows t)
                  "voltage_0 (positive peak)") = Ok positive_peak /\
    horizontal_threshold th =
      (if nlt negative_peak positive_peak
       then negative_peak else positive_peak) /\
    (forall x y, negative_peak = Fin x -> positive_peak = Fin y ->
       exists z,
         horizontal_threshold th = Fin z /\
         z == Qmin x y /\
         (0 <= x -> 0 <= y -> z == Qmin (Qabs x) (Qabs y))).
Proof.
  unfold read_thresholds. intro H.
  destruct (iloc0 (column _ _ "voltage (dc voltage)")) as [vb|]; [|discriminate].
  destruct (iloc0 (column _ _ "voltage_0 (dc voltage)")) as [hb|]; [|discriminate].
  destruct (iloc0 (column _ _ "voltage (positive peak)")) as [tv|]; [|discriminate].
  destruct (iloc0 (column _ _ "voltage_0 (negative peak)")) as [neg|]; [|discriminate].
  destruct (iloc0 (column _ _ "voltage_0 (positive peak)")) as [pos|]; [|discriminate].
  simpl in H. injection H as <-. simpl.
  exists neg, pos. repeat split.
  intros x y -> ->.
  destruct (pick_horizontal_threshold_min x y) as (z & Hz & Hmin).
  exists z. repeat split; auto.
  intros Hx Hy. rewrite Hmin, (Qabs_pos x Hx), (Qabs_pos y Hy). reflexivity.
Qed.

Lemma horizontal_trigger_is_smaller_cell_witness :
  exists negative_peak positive_peak,
    iloc0 (column (clean_columns (columns long_vertical_sheet))
                  (rows long_vertical_sheet)
                  "voltage_0 (negative peak)") = Ok negative_peak /\
    iloc0 (column (clean_columns (columns long_vertical_sheet))
                  (rows long_vertical_sheet)
                  "voltage_0 (positive peak)") = Ok positive_peak /\
    horizontal_threshold unit_thresholds =
      (if nlt negative_peak positive_peak
       then negative_peak else positive_peak) /\
    (forall x y, negative_peak = Fin x -> positive_peak = Fin y ->
       exists z,
         horizontal_threshold unit_thresholds = Fin z /\
         z == Qmin x y /\
         (0 <= x -> 0 <= y -> z == Qmin (Qabs x) (Qabs y))).
Proof.
  apply (horizontal_trigger_is_smaller_cell long_vertical_sheet unit_thresholds).
  vm_compute. reflexivity.
Defined.

(** C3 fails as stated: with a negative peak of -2 and a positive peak of
    1 the trigger is -2, not the smaller magnitude 1. *)
Lemma signed_negative_peak_chosen :
  (th <- read_thresholds (clean_columns (columns signed_peaks_sheet))
                         (rows signed_peaks_sheet) ;;
   Ok (horizontal_threshold th)) = Ok (Fin (-2)) /\
  ~ -2 == Qmin (Qabs (-2)) (Qabs 1).
Proof.
  split.
  - vm_compute. reflexivity.
  - vm_compute. discriminate.
Qed.

Ltac locate :=
  match goal with
  | |- includes ?m ?c =>
      let k := eval vm_compute in (String.index 0 c m) in
      match k with
      | Some ?n =>
          exists (substring 0 n m),
                 (substring (n + String.length c) (String.length m) m);
          vm_compute; reflexivity
      end
  end.

(** C7: when one of the seven required names is absent from the cleaned
    header, the analysis raises a [ValueError] whose message carries the
    printed list of all seven names, each of them included; no list of
    events is returned. *)
Theorem missing_column_raises (t : table) :
  (exists c, In c required_columns /\ ~ In c (clean_columns (columns t))) ->
  analyze t = Raise (ValueError missing_columns_message) /\
  includes missing_columns_message (repr_list required_columns) /\
  (forall c, In c required_columns -> includes missing_columns_message c) /\
  (forall evs, analyze t <> Ok evs).
Proof.
  intros (c & Hreq & Hmiss).
  assert (Ha : analyze t = Raise (ValueError missing_columns_message)).
  { unfold analyze.
    destruct (forallb (has_column (clean_columns (columns t))) required_columns)
      eqn:E; [|reflexivity].
    exfalso. apply Hmiss. apply has_column_In.
    rewrite forallb_forall in E. apply E. exact Hreq. }
  split; [exact Ha|]. split; [locate|]. split.
  - intros c' Hc'. simpl in Hc'.
    repeat (destruct Hc' as [<-|Hc']; [locate|]). contradiction.
  - intros evs. rewrite Ha. discriminate.
Qed.

Lemma missing_column_raises_witness :
  analyze missing_column_sheet = Raise (ValueError missing_columns_message) /\
  includes missing_columns_message (repr_list required_columns) /\
  (forall c, In c required_columns -> includes missing_columns_message c) /\
  (forall evs, analyze missing_column_sheet <> Ok evs).
Proof.
  apply (missing_column_raises missing_column_sheet).
  exists "voltage_0 (negative peak)"%string. split.
  - simpl. tauto.
  - vm_compute. intros [H|[H|[H|[H|[H|[H|[]]]]]]]; discriminate H.
Defined.

(** ** Claims about one iteration *)

Lemma snoc_neq {A : Type} (l : list A) (x : A) : l <> l ++ [x].
Proof.
  intro H. apply (f_equal (@length A)) in H.
  rewrite length_app in H. simpl in H. lia.
Qed.

Lemma close_condition_split th d i c :
  close_condition th d i c = true ->
  entry_condition th d i = false /\
  match c with
  | horizontal => horizontal_exit th (sample_horizontal d i) = true
  | vertical => vertical_exit th (sample_vertical d i) = true
  end.
Proof.
  destruct c; simpl; unfold horizontal_close, vertical_close;
    rewrite andb_true_iff, negb_true_iff; tauto.
Qed.

(** An open event stays as it is on a row in cooldown and on a row that
    fails its closing test. *)
Lemma loop_body_stays th d i s c :
  is_in_event s = true -> triggering_type s = Some c ->
  in_cooldown s (sample_time d i) = true \/ close_condition th d i c = false ->
  loop_body th d i s = Ok s.
Proof.
  intros Hin Htt H. unfold loop_body.
  fold (sample_time d i) (sample_vertical d i) (sample_horizontal d i).
  fold (entry_condition th d i).
  destruct (in_cooldown s (sample_time d i)); [reflexivity|].
  destruct H as [H|H]; [discriminate|].
  rewrite Hin, Htt. simpl.
  destruct (entry_condition th d i) eqn:Hen; [reflexivity|].
  destruct c; simpl in *; unfold horizontal_close, vertical_close in H;
    rewrite Hen in H; simpl in H; rewrite H; reflexivity.
Qed.

Lemma loop_body_closes th d i s c :
  is_in_event s = true -> triggering_type s = Some c ->
  in_cooldown s (sample_time d i) = false ->
  close_condition th d i c = true ->
  loop_body th d i s =
  match c with
  | horizontal => close_horizontal th d s (sample_time d i)
  | vertical => close_vertical th d s (sample_time d i)
  end.
Proof.
  intros Hin Htt Hcd Hcl. apply close_condition_split in Hcl as [Hen Hx].
  unfold loop_body.
  fold (sample_time d i) (sample_vertical d i) (sample_horizontal d i).
  fold (entry_condition th d i).
  rewrite Hcd, Hen, Hin, Htt. destruct c; simpl; rewrite Hx; reflexivity.
Qed.

(** C9 (as the program behaves): on the row at which an event starts, the
    recorded channel is horizontal exactly when the horizontal entry test
    holds on that row, whether or not the vertical one holds too, and
    vertical exactly when only the vertical entry test holds. *)
Theorem trigger_channel_on_entry (th : thresholds) (d : frame) (i : nat)
    (s s' : state) :
  loop_body th d i s = Ok s' ->
  is_in_event s = false -> is_in_event s' = true ->
  entry_condition th d i = true /\
  start_time s' = Some (sample_time d i) /\
  (triggering_type s' = Some horizontal <->
   horizontal_entry th (sample_horizontal d i) = true) /\
  (triggering_type s' = Some vertical <->
   horizontal_entry th (sample_horizontal d i) = false /\
   vertical_entry th (sample_vertical d i) = true).
Proof.
  intros Hstep Hin Hin'.
  apply loop_body_cases in Hstep
    as [-> | [(_ & Hen & _ & _ & Hst & _ & _ & Htt)
             | (_ & Hin2 & _)]]; [congruence| |congruence].
  split; [exact Hen|]. split; [exact Hst|]. rewrite Htt.
  unfold entry_condition in Hen.
  destruct (horizontal_entry th (sample_horizontal d i)).
  - split; split; try reflexivity; try discriminate.
    intros [H _]. discriminate.
  - rewrite orb_false_r in Hen.
    split; split; try reflexivity; try discriminate. now split.
Qed.

Lemma trigger_channel_on_entry_witness :
  entry_condition unit_thresholds (sheet_frame both_channels_sheet) 7 = true /\
  start_time (open_state horizontal)
  = Some (sample_time (sheet_frame both_channels_sheet) 7) /\
  (triggering_type (open_state horizontal) = Some horizontal <->
   horizontal_entry unit_thresholds
     (sample_horizontal (sheet_frame both_channels_sheet) 7) = true) /\
  (triggering_type (open_state horizontal) = Some vertical <->
   horizontal_entry unit_thresholds
     (sample_horizontal (sheet_frame both_channels_sheet) 7) = false /\
   vertical_entry unit_thresholds
     (sample_vertical (sheet_frame both_channels_sheet) 7) = true).
Proof.
  apply (trigger_channel_on_entry unit_thresholds
           (sheet_frame both_channels_sheet) 7
           initial_state (open_state horizontal)).
  - vm_compute. reflexivity.
  - reflexivity.
  - reflexivity.
Defined.

(** C9 fails as stated: on row 7 of a sheet where both entry tests hold,
    the event that starts is recorded as horizontal. *)
Lemma both_conditions_record_horizontal :
  read_thresholds (clean_columns (columns both_channels_sheet))
                  (rows both_channels_sheet) = Ok unit_thresholds /\
  detect_upto unit_thresholds (sheet_frame both_channels_sheet) 7
  = Ok initial_state /\
  vertical_entry unit_thresholds
    (sample_vertical (sheet_frame both_channels_sheet) 7) = true /\
  horizontal_entry unit_thresholds
    (sample_horizontal (sheet_frame both_channels_sheet) 7) = true /\
  detect_upto unit_thresholds (sheet_frame both_channels_sheet) 8
  = Ok (open_state horizontal) /\
  triggering_type (open_state horizontal) <> Some vertical.
Proof.
  repeat split; try (vm_compute; reflexivity). discriminate.
Qed.

(** ** Claims about the closing of an event *)

Lemma open_has_start th d k s :
  detect_upto th d k = Ok s -> is_in_event s = true ->
  exists st, start_time s = Some st.
Proof.
  revert s. induction k as [|k IH]; intros s Hs Hin.
  - injection Hs as <-. discriminate.
  - rewrite detect_upto_S in Hs.
    destruct (detect_upto th d k) as [s0|]; [|discriminate]. simpl in Hs.
    apply loop_body_cases in Hs
      as [-> | [(_ & _ & _ & _ & Hst & _) | (_ & _ & c & st & e & _ & _ & _ & -> & _)]].
    + apply (IH s0 eq_refl Hin).
    + eauto.
    + discriminate.
Qed.

(** Every event of a run was appended by some iteration that closed an open
    event. *)
Lemma emitted_events th d k s e :
  detect_upto th d k = Ok s -> In e (events s) ->
  exists j c, (j < k)%nat /\ emits th d j c e.
Proof.
  revert s. induction k as [|k IH]; intros s Hs Hin.
  - injection Hs as <-. contradiction.
  - rewrite detect_upto_S in Hs.
    destruct (detect_upto th d k) as [s0|] eqn:Hk; [|discriminate].
    simpl in Hs. pose proof Hs as Hstep.
    apply loop_body_cases in Hs
      as [-> | [(_ & _ & _ & He & _)
               | (_ & Hopen & c & st & e0 & Htt & _ & _ & -> & _)]].
    + destruct (IH s0 eq_refl Hin) as (j & c & Hj & Hem).
      exists j, c. split; [lia|exact Hem].
    + rewrite He in Hin. destruct (IH s0 eq_refl Hin) as (j & c & Hj & Hem).
      exists j, c. split; [lia|exact Hem].
    + simpl in Hin. apply in_app_or in Hin as [Hin|[<-|[]]].
      * destruct (IH s0 eq_refl Hin) as (j & c' & Hj & Hem).
        exists j, c'. split; [lia|exact Hem].
      * exists k, c. split; [lia|].
        exists s0, (record_event s0 e0). repeat split; auto.
Qed.

(** C6: an event closed while the recorded channel is vertical is a Blink
    without direction when it lasted at most 0.4 s; when it lasted longer
    it is an Action potential whose direction reads "Vertical: " followed
    by "Looking up" if the smoothed vertical value at the row nearest the
    end is above the baseline and by "Looking down" otherwise, possibly
    followed by a horizontal part. *)
Theorem vertical_event_classification (th : thresholds) (d : frame) (j : nat)
    (e : event) :
  emits th d j vertical e ->
  let end_vertical :=
    nth (nearest_index d (ev_end_time e)) (voltage_smooth d) NaN in
  ev_end_time e = sample_time d j - time_advance /\
  (ev_end_time e - ev_start_time e <= threshold_duration ->
   ev_event_type e = "Blink"%string /\ ev_direction e = None) /\
  (threshold_duration < ev_end_time e - ev_start_time e ->
   ev_event_type e = "Action potential"%string /\
   exists suffix,
     ev_direction e =
     Some ("Vertical: "
           ++ (if ngt end_vertical (vertical_baseline th)
               then "Looking up" else "Looking down")
           ++ suffix)%string).
Proof.
  intros (s & s' & Hs & Hstep & Hin & Htt & Hev). pose proof Hstep as Hc.
  apply loop_body_cases in Hc
    as [-> | [(_ & _ & Hin2 & _)
             | (Hcd & _ & c & st & e0 & Htt2 & Hst & Hcl & _)]].
  { exfalso. apply (snoc_neq _ _ Hev). }
  { congruence. }
  assert (c = vertical) by congruence. subst c.
  rewrite (loop_body_closes th d j s vertical Hin Htt Hcd Hcl) in Hstep.
  unfold close_vertical in Hstep. rewrite Hst in Hstep.
  destruct (Qle_bool (sample_time d j - time_advance - st) threshold_duration)
    eqn:Hd; injection Hstep as <-; simpl in Hev;
    apply app_inj_tail in Hev as [_ <-]; simpl.
  - apply Qle_bool_iff in Hd.
    split; [reflexivity|]. split; [intros _; split; reflexivity|].
    intro H. exfalso. lra.
  - assert (Hlong : ~ sample_time d j - time_advance - st <= threshold_duration).
    { intro H. apply Qle_bool_iff in H. congruence. }
    split; [reflexivity|]. split; [intro H; contradiction|].
    intros _. split; [reflexivity|].
    unfold vertical_direction.
    destruct (nge _ _).
    + eexists. destruct (ngt _ _); reflexivity.
    + exists ""%string. destruct (ngt _ _); reflexivity.
Qed.

Lemma vertical_event_classification_witness :
  ev_end_time long_vertical_event
  = sample_time (sheet_frame long_vertical_sheet) 301 - time_advance /\
  (ev_end_time long_vertical_event - ev_start_time long_vertical_event
   <= threshold_duration ->
   ev_event_type long_vertical_event = "Blink"%string /\
   ev_direction long_vertical_event = None) /\
  (threshold_duration
   < ev_end_time long_vertical_event - ev_start_time long_vertical_event ->
   ev_event_type long_vertical_event = "Action potential"%string /\
   exists suffix,
     ev_direction long_vertical_event =
     Some ("Vertical: "
           ++ (if ngt (nth (nearest_index (sheet_frame long_vertical_sheet)
                              (ev_end_time long_vertical_event))
                           (voltage_smooth (sheet_frame long_vertical_sheet))
                           NaN)
                      (vertical_baseline unit_thresholds)
               then "Looking up" else "Looking down")
           ++ suffix)%string).
Proof.
  apply (vertical_event_classification unit_thresholds
           (sheet_frame long_vertical_sheet) 301 long_vertical_event).
  exists (open_state vertical),
         (record_event (open_state vertical) long_vertical_event).
  repeat split; vm_compute; reflexivity.
Defined.

Lemma close_vertical_ok th d s t st :
  start_time s = Some st ->
  exists e,
    close_vertical th d s t = Ok (record_event s e) /\
    ev_start_time e = st /\ ev_end_time e = t - time_advance.
Proof.
  intro H. unfold close_vertical. rewrite H.
  destruct (Qle_bool _ _); eexists; repeat split.
Qed.

Lemma close_horizontal_ok th d s t st :
  start_time s = Some st ->
  exists e,
    close_horizontal th d s t = Ok (record_event s e) /\
    ev_start_time e = st /\ ev_end_time e = t - time_advance.
Proof.
  intro H. unfold close_horizontal. rewrite H. eexists; repeat split.
Qed.

(** An open event survives every row up to the first one that is out of
    cooldown and passes the closing test of its channel, and is closed by
    that row. *)
Lemma open_event_run th d c k s j :
  detect_upto th d k = Ok s ->
  is_in_event s = true -> triggering_type s = Some c ->
  (k <= j)%nat ->
  (forall m, (k <= m < j)%nat ->
     in_cooldown s (sample_time d m) = true \/
     close_condition th d m c = false) ->
  in_cooldown s (sample_time d j) = false ->
  close_condition th d j c = true ->
  (forall m, (k <= m <= j)%nat -> detect_upto th d m = Ok s) /\
  exists e,
    detect_upto th d (S j) = Ok (record_event s e) /\
    start_time s = Some (ev_start_time e) /\
    ev_end_time e = sample_time d j - time_advance.
Proof.
  intros Hs Hin Htt Hkj Hwait Hcd Hcl.
  assert (Hrun : forall n, (k + n <= j)%nat -> detect_upto th d (k + n) = Ok s).
  { induction n as [|n IH]; intro Hn.
    - rewrite Nat.add_0_r. exact Hs.
    - rewrite Nat.add_succ_r, detect_upto_S, IH by lia. simpl.
      apply (loop_body_stays th d (k + n) s c Hin Htt). apply Hwait. lia. }
  split.
  - intros m Hm. replace m with (k + (m - k))%nat by lia. apply Hrun. lia.
  - assert (Hj : detect_upto th d j = Ok s).
    { replace j with (k + (j - k))%nat by lia. apply Hrun. lia. }
    rewrite detect_upto_S, Hj. simpl.
    rewrite (loop_body_closes th d j s c Hin Htt Hcd Hcl).
    destruct (open_has_start th d k s Hs Hin) as (st & Hst).
    destruct c.
    + destruct (close_horizontal_ok th d s (sample_time d j) st Hst)
        as (e & He & Hes & Hee).
      exists e. rewrite Hes. auto.
    + destruct (close_vertical_ok th d s (sample_time d j) st Hst)
        as (e & He & Hes & Hee).
      exists e. rewrite Hes. auto.
Qed.

Lemma forallb_range (P : nat -> bool) k j :
  forallb P (seq k (j - k)) = true ->
  forall m, (k <= m < j)%nat -> P m = true.
Proof.
  intros H m Hm. rewrite forallb_forall in H. apply H, in_seq. lia.
Qed.

(** C1 (as the program behaves): an open event whose recorded channel is
    vertical is left open by every row that is in cooldown, or on which
    one of the two entry tests holds, or on which the vertical deviation
    exceeds three times the vertical trigger; the first row that is out of
    cooldown, on which neither entry test holds (the horizontal one
    included) and the vertical deviation is at most three times the
    vertical trigger, closes it, with an end 0.05 s before that row. *)
Theorem vertical_event_closes_when_quiet (th : thresholds) (d : frame)
    (k : nat) (s : state) (j : nat) :
  detect_upto th d k = Ok s ->
  is_in_event s = true -> triggering_type s = Some vertical ->
  (k <= j)%nat ->
  (forall m, (k <= m < j)%nat ->
     in_cooldown s (sample_time d m) = true \/
     vertical_entry th (sample_vertical d m) = true \/
     horizontal_entry th (sample_horizontal d m) = true \/
     vertical_exit th (sample_vertical d m) = false) ->
  in_cooldown s (sample_time d j) = false ->
  vertical_entry th (sample_vertical d j) = false ->
  horizontal_entry th (sample_horizontal d j) = false ->
  vertical_exit th (sample_vertical d j) = true ->
  (forall m, (k <= m <= j)%nat -> detect_upto th d m = Ok s) /\
  exists e,
    detect_upto th d (S j) = Ok (record_event s e) /\
    start_time s = Some (ev_start_time e) /\
    ev_end_time e = sample_time d j - time_advance.
Proof.
  intros Hs Hin Htt Hkj Hwait Hcd Hv Hh Hx.
  apply (open_event_run th d vertical k s j); auto.
  - intros m Hm. simpl. unfold vertical_close, entry_condition.
    destruct (Hwait m Hm) as [H|[H|[H|H]]]; [now left| | |];
      right; rewrite H; simpl;
      try rewrite orb_true_r; try reflexivity; apply andb_false_r.
  - simpl. unfold vertical_close, entry_condition. now rewrite Hv, Hh, Hx.
Qed.

Lemma orb4_cases (a b c x : bool) :
  a || b || c || negb x = true ->
  a = true \/ b = true \/ c = true \/ x = false.
Proof.
  destruct a, b, c, x; simpl; intro H; auto; discriminate.
Qed.

Lemma vertical_event_closes_when_quiet_witness :
  (forall m, (8 <= m <= 35)%nat ->
     detect_upto unit_thresholds (sheet_frame vertical_pulse_sheet) m
     = Ok (open_state vertical)) /\
  exists e,
    detect_upto unit_thresholds (sheet_frame vertical_pulse_sheet) 36
    = Ok (record_event (open_state vertical) e) /\
    start_time (open_state vertical) = Some (ev_start_time e) /\
    ev_end_time e
    = sample_time (sheet_frame vertical_pulse_sheet) 35 - time_advance.
Proof.
  apply (vertical_event_closes_when_quiet unit_thresholds
           (sheet_frame vertical_pulse_sheet) 8 (open_state vertical) 35).
  - vm_compute. reflexivity.
  - reflexivity.
  - reflexivity.
  - lia.
  - intros m Hm. apply orb4_cases.
    apply (forallb_range
             (fun m =>
                in_cooldown (open_state vertical)
                  (sample_time (sheet_frame vertical_pulse_sheet) m)
                || vertical_entry unit_thresholds
                     (sample_vertical (sheet_frame vertical_pulse_sheet) m)
                || horizontal_entry unit_thresholds
                     (sample_horizontal (sheet_frame vertical_pulse_sheet) m)
                || negb (vertical_exit unit_thresholds
                           (sample_vertical (sheet_frame vertical_pulse_sheet) m)))
             8 35); [vm_compute; reflexivity|exact Hm].
  - vm_compute. reflexivity.
  - vm_compute. reflexivity.
  - vm_compute. reflexivity.
  - vm_compute. reflexivity.
Defined.

(** C1 fails as stated.  On [vertical_pulse_sheet] the open vertical event
    meets |smooth_vertical - baseline| <= 3 * trigger for the first time on
    row 27, out of cooldown, and row 27 leaves it open; it is closed by row
    35.  On [vertical_then_horizontal_sheet] row 35 carries the same
    vertical value and a horizontal value beyond its entry level, and
    leaves the event open. *)
Lemma vertical_exit_band_not_decisive :
  detect_upto unit_thresholds (sheet_frame vertical_pulse_sheet) 27
  = Ok (open_state vertical) /\
  forallb (fun m => negb (vertical_exit unit_thresholds
                            (sample_vertical (sheet_frame vertical_pulse_sheet) m)))
          (seq 8 19) = true /\
  in_cooldown (open_state vertical)
    (sample_time (sheet_frame vertical_pulse_sheet) 27) = false /\
  vertical_exit unit_thresholds
    (sample_vertical (sheet_frame vertical_pulse_sheet) 27) = true /\
  detect_upto unit_thresholds (sheet_frame vertical_pulse_sheet) 28
  = Ok (open_state vertical) /\
  detect_upto unit_thresholds (sheet_frame vertical_pulse_sheet) 36
  = Ok (record_event (open_state vertical) vertical_pulse_event) /\
  detect_upto unit_thresholds (sheet_frame vertical_then_horizontal_sheet) 35
  = Ok (open_state vertical) /\
  sample_vertical (sheet_frame vertical_then_horizontal_sheet) 35
  = sample_vertical (sheet_frame vertical_pulse_sheet) 35 /\
  vertical_exit unit_thresholds
    (sample_vertical (sheet_frame vertical_then_horizontal_sheet) 35) = true /\
  detect_upto unit_thresholds (sheet_frame vertical_then_horizontal_sheet) 36
  = Ok (open_state vertical).
Proof.
  repeat split; vm_compute; reflexivity.
Qed.

(** C2 (as the program behaves): an open event whose recorded channel is
    horizontal is left open by every row that is in cooldown, or on which
    one of the two entry tests holds (the vertical one included), or on
    which the horizontal deviation exceeds three times the horizontal
    trigger; the first row that is out of cooldown, on which neither entry
    test holds and the horizontal deviation is at most three times the
    horizontal trigger, closes it, with an end 0.05 s before that row. *)
Theorem horizontal_event_closes_when_quiet (th : thresholds) (d : frame)
    (k : nat) (s : state) (j : nat) :
  detect_upto th d k = Ok s ->
  is_in_event s = true -> triggering_type s = Some horizontal ->
  (k <= j)%nat ->
  (forall m, (k <= m < j)%nat ->
     in_cooldown s (sample_time d m) = true \/
     vertical_entry th (sample_vertical d m) = true \/
     horizontal_entry th (sample_horizontal d m) = true \/
     horizontal_exit th (sample_horizontal d m) = false) ->
  in_cooldown s (sample_time d j) = false ->
  vertical_entry th (sample_vertical d j) = false ->
  horizontal_entry th (sample_horizontal d j) = false ->
  horizontal_exit th (sample_horizontal d j) = true ->
  (forall m, (k <= m <= j)%nat -> detect_upto th d m = Ok s) /\
  exists e,
    detect_upto th d (S j) = Ok (record_event s e) /\
    start_time s = Some (ev_start_time e) /\
    ev_end_time e = sample_time d j - time_advance.
Proof.
  intros Hs Hin Htt Hkj Hwait Hcd Hv Hh Hx.
  apply (open_event_run th d horizontal k s j); auto.
  - intros m Hm. simpl. unfold horizontal_close, entry_condition.
    destruct (Hwait m Hm) as [H|[H|[H|H]]]; [now left| | |];
      right; rewrite H; simpl;
      try rewrite orb_true_r; try reflexivity; apply andb_false_r.
  - simpl. unfold horizontal_close, entry_condition. now rewrite Hv, Hh, Hx.
Qed.

Lemma horizontal_event_closes_when_quiet_witness :
  (forall m, (8 <= m <= 27)%nat ->
     detect_upto unit_thresholds (sheet_frame horizontal_pulse_sheet) m
     = Ok (open_state horizontal)) /\
  exists e,
    detect_upto unit_thresholds (sheet_frame horizontal_pulse_sheet) 28
    = Ok (record_event (open_state horizontal) e) /\
    start_time (open_state horizontal) = Some (ev_start_time e) /\
    ev_end_time e
    = sample_time (sheet_frame horizontal_pulse_sheet) 27 - time_advance.
Proof.
  apply (horizontal_event_closes_when_quiet unit_thresholds
           (sheet_frame horizontal_pulse_sheet) 8 (open_state horizontal) 27).
  - vm_compute. reflexivity.
  - reflexivity.
  - reflexivity.
  - lia.
  - intros m Hm. apply orb4_cases.
    apply (forallb_range
             (fun m =>
                in_cooldown (open_state horizontal)
                  (sample_time (sheet_frame horizontal_pulse_sheet) m)
                || vertical_entry unit_thresholds
                     (sample_vertical (sheet_frame horizontal_pulse_sheet) m)
                || horizontal_entry unit_thresholds
                     (sample_horizontal (sheet_frame horizontal_pulse_sheet) m)
                || negb (horizontal_exit unit_thresholds
                           (sample_horizontal (sheet_frame horizontal_pulse_sheet) m)))
             8 27); [vm_compute; reflexivity|exact Hm].
  - vm_compute. reflexivity.
  - vm_compute. reflexivity.
  - vm_compute. reflexivity.
  - vm_compute. reflexivity.
Defined.

(** C2 fails as stated.  On [horizontal_then_vertical_sheet] the open
    horizontal event meets |smooth_horizontal - baseline| <= 3 * trigger
    for the first time on row 27, out of cooldown, with the very
    horizontal value that closes the event on [horizontal_pulse_sheet];
    the vertical channel is beyond its entry level there, and row 27
    leaves the event open. *)
Lemma horizontal_exit_band_not_decisive :
  detect_upto unit_thresholds (sheet_frame horizontal_then_vertical_sheet) 27
  = Ok (open_state horizontal) /\
  forallb (fun m =>
             negb (horizontal_exit unit_thresholds
                     (sample_horizontal
                        (sheet_frame horizontal_then_vertical_sheet) m)))
          (seq 8 19) = true /\
  in_cooldown (open_state horizontal)
    (sample_time (sheet_frame horizontal_then_vertical_sheet) 27) = false /\
  horizontal_exit unit_thresholds
    (sample_horizontal (sheet_frame horizontal_then_vertical_sheet) 27) = true /\
  detect_upto unit_thresholds (sheet_frame horizontal_then_vertical_sheet) 28
  = Ok (open_state horizontal) /\
  sample_horizontal (sheet_frame horizontal_then_vertical_sheet) 27
  = sample_horizontal (sheet_frame horizontal_pulse_sheet) 27 /\
  detect_upto unit_thresholds (sheet_frame horizontal_pulse_sheet) 27
  = Ok (open_state horizontal) /\
  detect_upto unit_thresholds (sheet_frame horizontal_pulse_sheet) 28
  = Ok (record_event (open_state horizontal) horizontal_pulse_event).
Proof.
  repeat split; vm_compute; reflexivity.
Qed.

(** ** The decisive time values in binary64 *)

(** Closed at row 25, an event ends at exactly 0.0 in doubles too: the end
    is falsy, although row 40 lies before the end plus the cooldown. *)
Lemma doubles_zero_end_at_row_25 :
  Doubles.truthy (Doubles.end_time_at 25) = false /\
  Doubles.before_cooldown_end 40 25 = true.
Proof.
  split; vm_compute; reflexivity.
Qed.

(** Opened at row 7 and closed at row 15, an event ends before it starts in
    doubles too. *)
Lemma doubles_short_event_reversed :
  PrimFloat.ltb (Doubles.end_time_at 15) (Doubles.time_of 7) = true.
Proof.
  vm_compute. reflexivity.
Qed.

(** ** Plain headers *)

Lemma distinct_NoDup l : distinct l = true -> NoDup l.
Proof.
  induction l as [|x l IH]; intro H; [constructor|].
  simpl in H. apply andb_true_iff in H as [Hx Hl].
  constructor; [|apply IH, Hl].
  intro Hin. apply negb_true_iff in Hx.
  assert (E : existsb (String.eqb x) l = true).
  { apply existsb_exists. exists x. split; [exact Hin|apply String.eqb_refl]. }
  congruence.
Qed.

Lemma plain_header_check cols :
  forallb ascii_only cols && distinct (clean_columns cols) = true ->
  plain_header cols.
Proof.
  intro H. apply andb_true_iff in H as [Ha Hd].
  split; [exact Ha|apply distinct_NoDup, Hd].
Qed.

(** A header with the seven names and an eighth label that cleans to
    "voltage" is not plain: there [data['voltage']] is two columns and
    the program fails at line 42. *)
Lemma twice_voltage_not_plain : ~ plain_header twice_voltage_columns.
Proof.
  intros [_ H]. vm_compute in H.
  inversion H as [|x l Hin _]. apply Hin. simpl. tauto.
Qed.

(** ** Further properties of the detector *)

(** What [emits] says about the closing iteration. *)
Lemma emits_inv th d j c e :
  emits th d j c e ->
  exists s st,
    detect_upto th d j = Ok s /\
    start_time s = Some st /\
    match c with
    | horizontal => close_horizontal th d s (sample_time d j)
    | vertical => close_vertical th d s (sample_time d j)
    end = Ok (record_event s e).
Proof.
  intros (s & s' & Hs & Hstep & Hin & Htt & Hev). pose proof Hstep as Hc.
  apply loop_body_cases in Hc
    as [-> | [(_ & _ & Hin2 & _)
             | (Hcd & _ & c' & st & e0 & Htt2 & Hst & Hcl & -> & _)]].
  { exfalso. apply (snoc_neq _ _ Hev). }
  { congruence. }
  assert (c' = c) by congruence. subst c'.
  simpl in Hev. apply app_inj_tail in Hev as [_ ->].
  exists s, st. split; [exact Hs|]. split; [exact Hst|].
  rewrite <- Hstep. symmetry.
  apply (loop_body_closes th d j s c Hin Htt Hcd Hcl).
Qed.

Lemma record_event_inj s e e' : record_event s e = record_event s e' -> e = e'.
Proof.
  intro H. apply (f_equal events) in H. simpl in H.
  apply app_inj_tail in H as [_ H]. exact H.
Qed.

Lemma Ok_record_event_inj s e e' :
  Ok (record_event s e) = Ok (record_event s e') -> e = e'.
Proof.
  intro H. apply (record_event_inj s). congruence.
Qed.

(** An event closed while the recorded channel is horizontal is an Action
    potential whatever its duration, and its direction is "Horizontal: "
    followed by "Looking left" if the smoothed horizontal value at the row
    nearest the end is above the baseline and by "Looking right"
    otherwise. *)
Theorem horizontal_event_classification (th : thresholds) (d : frame)
    (j : nat) (e : event) :
  emits th d j horizontal e ->
  let end_horizontal :=
    nth (nearest_index d (ev_end_time e)) (voltage_0_smooth d) NaN in
  ev_end_time e = sample_time d j - time_advance /\
  ev_event_type e = "Action potential"%string /\
  ev_direction e =
  Some ("Horizontal: "
        ++ (if ngt end_horizontal (horizontal_baseline th)
            then "Looking left" else "Looking right"))%string.
Proof.
  intros He. apply emits_inv in He as (s & st & _ & Hst & Hc).
  unfold close_horizontal in Hc. rewrite Hst in Hc.
  apply Ok_record_event_inj in Hc. subst e. simpl.
  repeat split.
Qed.

Lemma horizontal_event_classification_witness :
  ev_end_time horizontal_pulse_event
  = sample_time (sheet_frame horizontal_pulse_sheet) 27 - time_advance /\
  ev_event_type horizontal_pulse_event = "Action potential"%string /\
  ev_direction horizontal_pulse_event =
  Some ("Horizontal: "
        ++ (if ngt (nth (nearest_index (sheet_frame horizontal_pulse_sheet)
                           (ev_end_time horizontal_pulse_event))
                        (voltage_0_smooth (sheet_frame horizontal_pulse_sheet))
                        NaN)
                   (horizontal_baseline unit_thresholds)
            then "Looking left" else "Looking right"))%string.
Proof.
  apply (horizontal_event_classification unit_thresholds
           (sheet_frame horizontal_pulse_sheet) 27 horizontal_pulse_event).
  exists (open_state horizontal),
         (record_event (open_state horizontal) horizontal_pulse_event).
  repeat split; vm_compute; reflexivity.
Defined.

(** The shape of an event, whichever channel closed it. *)
Lemma emits_shape th d j c e :
  emits th d j c e ->
  (ev_event_type e = "Blink"%string /\ ev_direction e = None /\
   ev_end_time e - ev_start_time e <= threshold_duration) \/
  (ev_event_type e = "Action potential"%string /\
   exists text, ev_direction e = Some text /\ In text direction_texts).
Proof.
  intros He. apply emits_inv in He as (s & st & _ & Hst & Hc).
  destruct c.
  - unfold close_horizontal in Hc. rewrite Hst in Hc.
    apply Ok_record_event_inj in Hc. subst e. simpl.
    right. split; [reflexivity|]. eexists. split; [reflexivity|].
    unfold horizontal_direction. destruct (ngt _ _); simpl; tauto.
  - unfold close_vertical in Hc. rewrite Hst in Hc.
    destruct (Qle_bool _ _) eqn:Hd;
      apply Ok_record_event_inj in Hc; subst e; simpl.
    + left. apply Qle_bool_iff in Hd. repeat split. exact Hd.
    + right. split; [reflexivity|]. eexists. split; [reflexivity|].
      unfold vertical_direction, horizontal_direction.
      repeat match goal with
             | |- context [if ?b then _ else _] => destruct b
             end; simpl; tauto.
Qed.

(** Every event of a run is a Blink without direction that lasted at most
    0.4 s, or an Action potential whose direction is one of eight fixed
    texts. *)
Theorem event_shapes (t : table) (evs : list event) (e : event) :
  analyze t = Ok evs -> In e evs ->
  (ev_event_type e = "Blink"%string /\ ev_direction e = None /\
   ev_end_time e - ev_start_time e <= threshold_duration) \/
  (ev_event_type e = "Action potential"%string /\
   exists text, ev_direction e = Some text /\ In text direction_texts).
Proof.
  intros Ha Hin. apply analyze_inv in Ha as (_ & th & _ & Hd).
  apply detect_inv in Hd as (s & Hs & <-).
  destruct (emitted_events _ _ _ _ _ Hs Hin) as (j & c & _ & Hem).
  apply (emits_shape _ _ _ _ _ Hem).
Qed.

Lemma event_shapes_witness :
  (ev_event_type long_vertical_event = "Blink"%string /\
   ev_direction long_vertical_event = None /\
   ev_end_time long_vertical_event - ev_start_time long_vertical_event
   <= threshold_duration) \/
  (ev_event_type long_vertical_event = "Action potential"%string /\
   exists text,
     ev_direction long_vertical_event = Some text /\
     In text direction_texts).
Proof.
  apply (event_shapes long_vertical_sheet [long_vertical_event]).
  - vm_compute. reflexivity.
  - simpl. left. reflexivity.
Defined.

(** The log line of an event of a run is yellow and carries no direction
    for a Blink, and is red and ends with one of the eight direction texts
    otherwise, never with the text "None"; the span is yellow for a Blink
    and blue otherwise. *)
Theorem event_line_of_run (format_3f : Q -> string) (t : table)
    (evs : list event) (e : event) :
  analyze t = Ok evs -> In e evs ->
  (span_color e = "yellow"%string /\
   event_line format_3f e =
   (Fore_YELLOW ++ "Event: Blink - Start: " ++ format_3f (ev_start_time e)
      ++ "s, End: " ++ format_3f (ev_end_time e) ++ "s")%string) \/
  (span_color e = "blue"%string /\
   exists text,
     In text direction_texts /\
     event_line format_3f e =
     (Fore_RED ++ "Event: Action potential - Start: "
        ++ format_3f (ev_start_time e)
        ++ "s, End: " ++ format_3f (ev_end_time e)
        ++ "s, Direction: " ++ text)%string).
Proof.
  intros Ha Hin. apply analyze_inv in Ha as (_ & th & _ & Hd).
  apply detect_inv in Hd as (s & Hs & <-).
  destruct (emitted_events _ _ _ _ _ Hs Hin) as (j & c & _ & Hem).
  destruct (emits_shape _ _ _ _ _ Hem)
    as [(Ht & Hdir & _) | (Ht & text & Hdir & Htext)];
    unfold span_color, event_line; rewrite Ht, ?Hdir; simpl.
  - left. split; reflexivity.
  - right. split; [reflexivity|]. exists text. split; [exact Htext|reflexivity].
Qed.

Lemma event_line_of_run_witness :
  (span_color long_vertical_event = "yellow"%string /\
   event_line (fun _ => "?"%string) long_vertical_event =
   (Fore_YELLOW ++ "Event: Blink - Start: " ++ "?" ++ "s, End: " ++ "?"
      ++ "s")%string) \/
  (span_color long_vertical_event = "blue"%string /\
   exists text,
     In text direction_texts /\
     event_line (fun _ => "?"%string) long_vertical_event =
     (Fore_RED ++ "Event: Action potential - Start: " ++ "?"
        ++ "s, End: " ++ "?" ++ "s, Direction: " ++ text)%string).
Proof.
  apply (event_line_of_run (fun _ => "?"%string)
           long_vertical_sheet [long_vertical_event]).
  - vm_compute. reflexivity.
  - simpl. left. reflexivity.
Defined.

(** An open event waits through rows in cooldown and rows that fail its
    closing test. *)
Lemma open_event_waits th d c k s :
  detect_upto th d k = Ok s ->
  is_in_event s = true -> triggering_type s = Some c ->
  forall n,
    (forall m, (k <= m < k + n)%nat ->
       in_cooldown s (sample_time d m) = true \/
       close_condition th d m c = false) ->
    detect_upto th d (k + n) = Ok s.
Proof.
  intros Hs Hin Htt. induction n as [|n IH]; intro Hwait.
  - rewrite Nat.add_0_r. exact Hs.
  - rewrite Nat.add_succ_r, detect_upto_S, IH by (intros m Hm; apply Hwait; lia).
    simpl. apply (loop_body_stays th d (k + n) s c Hin Htt). apply Hwait. lia.
Qed.

(** An event still open when the rows run out is not reported: the run
    returns the events recorded before it. *)
Theorem open_event_dropped (th : thresholds) (d : frame) (c : channel)
    (k : nat) (s : state) :
  detect_upto th d k = Ok s ->
  is_in_event s = true -> triggering_type s = Some c ->
  (k <= length (time d))%nat ->
  (forall m, (k <= m < length (time d))%nat ->
     in_cooldown s (sample_time d m) = true \/
     close_condition th d m c = false) ->
  detect th d = Ok (events s).
Proof.
  intros Hs Hin Htt Hk Hwait. unfold detect.
  replace (length (time d)) with (k + (length (time d) - k))%nat by lia.
  rewrite (open_event_waits th d c k s Hs Hin Htt).
  - reflexivity.
  - intros m Hm. apply Hwait. lia.
Qed.

Lemma open_event_dropped_witness :
  detect unit_thresholds (sheet_frame vertical_then_horizontal_sheet)
  = Ok (events (open_state vertical)).
Proof.
  apply (open_event_dropped unit_thresholds
           (sheet_frame vertical_then_horizontal_sheet) vertical 8
           (open_state vertical)).
  - vm_compute. reflexivity.
  - reflexivity.
  - reflexivity.
  - vm_compute. lia.
  - intros m Hm.
    assert (Hb : in_cooldown (open_state vertical)
                   (sample_time (sheet_frame vertical_then_horizontal_sheet) m)
                 || negb (close_condition unit_thresholds
                            (sheet_frame vertical_then_horizontal_sheet) m
                            vertical) = true).
    { apply (forallb_range
               (fun m =>
                  in_cooldown (open_state vertical)
                    (sample_time (sheet_frame vertical_then_horizontal_sheet) m)
                  || negb (close_condition unit_thresholds
                             (sheet_frame vertical_then_horizontal_sheet) m
                             vertical))
               8 60); [vm_compute; reflexivity|].
      replace 60%nat
        with (length (time (sheet_frame vertical_then_horizontal_sheet)))
        by (vm_compute; reflexivity).
      exact Hm. }
    apply orb_true_iff in Hb as [Hb|Hb]; [now left|right].
    apply negb_true_iff. exact Hb.
Defined.

(** The events of a run are in time order: along the list both the start
    times and the end times increase strictly. *)
Theorem events_in_time_order (t : table) (evs : list event) (i : nat)
    (e1 e2 : event) :
  analyze t = Ok evs ->
  nth_error evs i = Some e1 -> nth_error evs (S i) = Some e2 ->
  ev_start_time e1 < ev_start_time e2 /\ ev_end_time e1 < ev_end_time e2.
Proof.
  intros Ha H1 H2.
  destruct (analyze_events t evs Ha) as (th & _ & Hsp & Hg).
  destruct (gaps_nth evs i e1 e2 Hg H1 H2) as [Hgap _].
  rewrite Forall_forall in Hsp.
  destruct (Hsp e1 (nth_error_In _ _ H1)) as (i1 & j1 & Hij1 & _ & Hs1 & He1).
  destruct (Hsp e2 (nth_error_In _ _ H2)) as (i2 & j2 & Hij2 & _ & Hs2 & He2).
  assert (L1 : time_of i1 < time_of j1) by (apply time_of_lt; lia).
  assert (L2 : time_of i2 < time_of j2) by (apply time_of_lt; lia).
  rewrite Hs1, Hs2, He1, He2 in *. split; lra.
Qed.

Lemma events_in_time_order_witness :
  ev_start_time first_pulse_event < ev_start_time second_pulse_event /\
  ev_end_time first_pulse_event < ev_end_time second_pulse_event.
Proof.
  apply (events_in_time_order double_pulse_sheet
           [first_pulse_event; second_pulse_event] 0).
  - vm_compute. reflexivity.
  - reflexivity.
  - reflexivity.
Defined.

(** With both entry tests false on every row so far, nothing has happened. *)
Lemma idle_run th d k :
  (forall i, (i < k)%nat -> entry_condition th d i = false) ->
  detect_upto th d k = Ok initial_state.
Proof.
  induction k as [|k IH]; intro H; [reflexivity|].
  rewrite detect_upto_S, IH by (intros i Hi; apply H; lia). simpl.
  unfold loop_body.
  fold (sample_vertical d k) (sample_horizontal d k).
  fold (entry_condition th d k).
  rewrite (H k) by lia. reflexivity.
Qed.

(** A sheet with a plain header, the seven columns and between one and
    fourteen rows yields no event, whatever its cells hold. *)
Theorem short_sheet_no_event (t : table) :
  plain_header (columns t) ->
  (forall c, In c required_columns -> In c (clean_columns (columns t))) ->
  rows t <> [] -> (length (rows t) < 15)%nat ->
  analyze t = Ok [].
Proof.
  intros _ Hcols Hrows Hlen.
  destruct (analyze_returns t Hcols Hrows) as (evs & Ha). rewrite Ha.
  apply analyze_inv in Ha as (_ & th & _ & Hd).
  unfold detect in Hd. rewrite idle_run in Hd.
  - simpl in Hd. symmetry. exact Hd.
  - intros i _. unfold sheet_frame.
    destruct (make_frame_edges (clean_columns (columns t)) (rows t) i) as [Hv Hh];
      [lia|].
    apply entry_condition_missing; assumption.
Qed.

Lemma short_sheet_no_event_witness : analyze ten_row_sheet = Ok [].
Proof.
  apply (short_sheet_no_event ten_row_sheet).
  - apply plain_header_check. vm_compute. reflexivity.
  - intros c Hc. vm_compute in Hc. vm_compute. tauto.
  - discriminate.
  - vm_compute. lia.
Defined.

(** A sheet with the seven columns and no row makes [.iloc[0]] of line 46
    raise an [IndexError]. *)
Theorem empty_sheet_raises (t : table) :
  (forall c, In c required_columns -> In c (clean_columns (columns t))) ->
  rows t = [] ->
  analyze t = Raise IndexError.
Proof.
  intros Hcols Hrows. unfold analyze.
  assert (E : forallb (has_column (clean_columns (columns t))) required_columns
              = true).
  { apply forallb_forall. intros c Hc. apply has_column_In, Hcols, Hc. }
  rewrite E, Hrows. simpl. unfold read_thresholds, column.
  destruct (index_of _ _); reflexivity.
Qed.

Lemma empty_sheet_raises_witness : analyze empty_sheet = Raise IndexError.
Proof.
  apply (empty_sheet_raises empty_sheet).
  - intros c Hc. vm_compute in Hc. vm_compute. tauto.
  - reflexivity.
Defined.

Lemma analyze_returns_witness :
  exists evs, analyze long_vertical_sheet = Ok evs.
Proof.
  apply (analyze_returns long_vertical_sheet).
  - intros c Hc. vm_compute in Hc. vm_compute. tauto.
  - discriminate.
Defined.

(** When the first row gives no vertical baseline or trigger and no
    horizontal baseline or trigger, no row passes an entry test and the
    run reports nothing. *)
Theorem missing_levels_no_event (th : thresholds) (d : frame) :
  vertical_baseline th = NaN \/ vertical_threshold th = NaN ->
  horizontal_baseline th = NaN \/ horizontal_threshold th = NaN ->
  detect th d = Ok [].
Proof.
  intros Hv Hh. unfold detect. rewrite idle_run; [reflexivity|].
  intros i _. unfold entry_condition, vertical_entry, horizontal_entry.
  apply orb_false_iff. split.
  - destruct Hv as [-> | ->]; destruct (sample_vertical d i);
      simpl; try reflexivity; destruct (vertical_baseline th); reflexivity.
  - destruct Hh as [-> | ->]; destruct (sample_horizontal d i);
      simpl; try reflexivity; destruct (horizontal_baseline th); reflexivity.
Qed.

Lemma missing_levels_no_event_witness :
  detect no_baseline_thresholds (sheet_frame long_vertical_sheet) = Ok [].
Proof.
  apply (missing_levels_no_event no_baseline_thresholds
           (sheet_frame long_vertical_sheet)); left; reflexivity.
Defined.

Lemma forallb_false_exists {A : Type} (f : A -> bool) l :
  forallb f l = false -> exists x, In x l /\ f x = false.
Proof.
  induction l as [|a l IH]; simpl; [discriminate|].
  destruct (f a) eqn:E; simpl; intro H.
  - destruct (IH H) as (x & Hx & Hf). exists x. split; [now right|exact Hf].
  - exists a. split; [now left|exact E].
Qed.

(** On a sheet with a plain header the analysis ends in exactly one of
    three ways: a [ValueError] when a required column is absent, an
    [IndexError] when the columns are there but the sheet has no row, and
    a list of events otherwise; the subtraction [end_time - start_time]
    never meets [None]. *)
Theorem analysis_outcomes (t : table) :
  plain_header (columns t) ->
  ((exists c, In c required_columns /\ ~ In c (clean_columns (columns t))) /\
   analyze t = Raise (ValueError missing_columns_message)) \/
  ((forall c, In c required_columns -> In c (clean_columns (columns t))) /\
   rows t = [] /\ analyze t = Raise IndexError) \/
  ((forall c, In c required_columns -> In c (clean_columns (columns t))) /\
   rows t <> [] /\ exists evs, analyze t = Ok evs).
Proof.
  intros _.
  destruct (forallb (has_column (clean_columns (columns t))) required_columns)
    eqn:E.
  - right.
    assert (Hcols : forall c, In c required_columns ->
                              In c (clean_columns (columns t))).
    { intros c Hc. apply has_column_In. rewrite forallb_forall in E.
      apply E, Hc. }
    destruct (rows t) eqn:Hrows.
    + left. repeat split; auto. apply empty_sheet_raises; assumption.
    + right. repeat split; auto; [discriminate|].
      apply analyze_returns; [assumption|]. rewrite Hrows. discriminate.
  - left. destruct (forallb_false_exists _ _ E) as (c & Hc & Hf). split.
    + exists c. split; [exact Hc|]. intro Hin. apply has_column_In in Hin.
      congruence.
    + unfold analyze. rewrite E. reflexivity.
Qed.

Lemma analysis_outcomes_witness :
  ((exists c, In c required_columns /\
              ~ In c (clean_columns (columns missing_column_sheet))) /\
   analyze missing_column_sheet = Raise (ValueError missing_columns_message)) \/
  ((forall c, In c required_columns ->
              In c (clean_columns (columns missing_column_sheet))) /\
   rows missing_column_sheet = [] /\
   analyze missing_column_sheet = Raise IndexError) \/
  ((forall c, In c required_columns ->
              In c (clean_columns (columns missing_column_sheet))) /\
   rows missing_column_sheet <> [] /\
   exists evs, analyze missing_column_sheet = Ok evs).
Proof.
  apply (analysis_outcomes missing_column_sheet).
  apply plain_header_check. vm_compute. reflexivity.
Defined.

(** ** The length of the cooldown *)

Lemma time_of_cooldown j m :
  time_of m < time_of j - time_advance + cooldown_time <-> (m < j + 225)%nat.
Proof.
  unfold time_of, time_interval, time_advance, cooldown_time, Qlt. simpl. lia.
Qed.

Lemma time_of_end_zero j : time_of j - time_advance == 0 <-> j = 25%nat.
Proof.
  unfold time_of, time_interval, time_advance, Qeq. simpl. lia.
Qed.

Lemma in_cooldown_after s j m :
  last_event_end_time s = Some (time_of j - time_advance) ->
  j <> 25%nat ->
  in_cooldown s (time_of m) = (m <? j + 225)%nat.
Proof.
  intros Hl Hj. unfold in_cooldown. rewrite Hl.
  destruct (Qeq_bool (time_of j - time_advance) 0) eqn:E.
  { apply Qeq_bool_iff, time_of_end_zero in E. contradiction. }
  simpl. destruct (Nat.ltb_spec m (j + 225)) as [H|H].
  - apply Qltb_lt, time_of_cooldown. exact H.
  - apply Qltb_ge. apply Qnot_lt_le. intro L.
    apply time_of_cooldown in L. lia.
Qed.

(** After an event has been closed by row [j], other than row 25, the
    loop ignores the next 224 rows: the state after row [j] is still the
    state before row [j + 225], whatever the two channels do in
    between. *)
Theorem cooldown_skips_224_rows (th : thresholds) (d : frame) (j : nat)
    (s0 s : state) (e : event) :
  timed d -> (j < length (time d))%nat ->
  detect_upto th d j = Ok s0 ->
  detect_upto th d (S j) = Ok s ->
  events s = events s0 ++ [e] ->
  j <> 25%nat ->
  forall m, (j < m <= j + 225)%nat -> (m <= length (time d))%nat ->
    detect_upto th d m = Ok s.
Proof.
  intros Ht Hjn Hs0 Hs Hev Hj.
  assert (Hl : last_event_end_time s = Some (time_of j - time_advance)).
  { pose proof Hs as Hstep. rewrite detect_upto_S, Hs0 in Hstep. simpl in Hstep.
    apply loop_body_cases in Hstep
      as [-> | [(_ & _ & _ & He & _)
               | (_ & _ & c & st & e0 & _ & _ & _ & -> & _ & Hee)]].
    - exfalso. apply (snoc_neq _ _ Hev).
    - exfalso. rewrite He in Hev. apply (snoc_neq _ _ Hev).
    - simpl. rewrite Hee, (Ht j Hjn). reflexivity. }
  assert (Hrun : forall r, (r < 225)%nat -> (j + 1 + r <= length (time d))%nat ->
                   detect_upto th d (j + 1 + r) = Ok s).
  { induction r as [|r IH]; intros Hr Hn.
    - replace (j + 1 + 0)%nat with (S j) by lia. exact Hs.
    - replace (j + 1 + S r)%nat with (S (j + 1 + r)) by lia.
      rewrite detect_upto_S, IH by lia. simpl. unfold loop_body.
      fold (sample_time d (j + 1 + r)%nat).
      rewrite (Ht (j + 1 + r)%nat) by lia.
      rewrite (in_cooldown_after s j (j + 1 + r)%nat Hl Hj).
      replace (j + 1 + r <? j + 225)%nat with true
        by (symmetry; apply Nat.ltb_lt; lia).
      reflexivity. }
  intros m Hm Hn. replace m with (j + 1 + (m - j - 1))%nat by lia.
  apply Hrun; lia.
Qed.

Lemma cooldown_skips_224_rows_witness :
  detect_upto unit_thresholds (sheet_frame spaced_pulses_sheet) (41 + 225)
  = Ok (record_event (open_state vertical) early_pulse_event).
Proof.
  apply (cooldown_skips_224_rows unit_thresholds
           (sheet_frame spaced_pulses_sheet) 41 (open_state vertical)
           (record_event (open_state vertical) early_pulse_event)
           early_pulse_event).
  - apply timed_make_frame.
  - vm_compute. lia.
  - vm_compute. reflexivity.
  - vm_compute. reflexivity.
  - reflexivity.
  - discriminate.
  - lia.
  - vm_compute. lia.
Defined.

(** ** The nearest-time lookup *)

Lemma argmin_from_spec l : forall best best_i i,
  (argmin_from best best_i i l = best_i /\ Forall (fun x => best <= x) l) \/
  (exists p,
     (p < length l)%nat /\
     argmin_from best best_i i l = (i + p)%nat /\
     nth p l 0 < best /\
     (forall q, (q < p)%nat -> nth p l 0 < nth q l 0) /\
     (forall q, (p <= q < length l)%nat -> nth p l 0 <= nth q l 0)).
Proof.
  induction l as [|x l IH]; intros best best_i i; [left; split; constructor|].
  simpl. destruct (Qltb x best) eqn:E.
  - apply Qltb_lt in E. right.
    destruct (IH x i (S i)) as [[Hr Hall] | (p & Hp & Hr & Hlt & Hfirst & Hmin)].
    + exists 0%nat. rewrite Hr, Nat.add_0_r. simpl. repeat split; try lia; auto.
      intros [|q] Hq; [lra|]. rewrite Forall_forall in Hall.
      apply Hall, nth_In. lia.
    + exists (S p). rewrite Hr. simpl. repeat split; try lia.
      * lra.
      * intros [|q] Hq; [exact Hlt|]. apply Hfirst. lia.
      * intros [|q] Hq; [lia|]. apply Hmin. lia.
  - apply Qltb_ge in E.
    destruct (IH best best_i (S i))
      as [[Hr Hall] | (p & Hp & Hr & Hlt & Hfirst & Hmin)].
    + left. split; [exact Hr|]. constructor; assumption.
    + right. exists (S p). rewrite Hr. simpl. repeat split; try lia; auto.
      * intros [|q] Hq; [lra|]. apply Hfirst. lia.
      * intros [|q] Hq; [lia|]. apply Hmin. lia.
Qed.

(** [argmin] returns the first position of a smallest value. *)
Lemma argmin_spec l :
  l <> [] ->
  (argmin l < length l)%nat /\
  (forall q, (q < argmin l)%nat -> nth (argmin l) l 0 < nth q l 0) /\
  (forall q, (q < length l)%nat -> nth (argmin l) l 0 <= nth q l 0).
Proof.
  destruct l as [|x l]; [congruence|]. intros _. unfold argmin.
  destruct (argmin_from_spec l x 0%nat 1%nat)
    as [[Hr Hall] | (p & Hp & Hr & Hlt & Hfirst & Hmin)]; rewrite Hr.
  - simpl. repeat split; try lia.
    intros [|q] Hq; [lra|]. rewrite Forall_forall in Hall.
    apply Hall, nth_In. simpl in Hq. lia.
  - change (1 + p)%nat with (S p). simpl. repeat split; try lia.
    + intros [|q] Hq; [exact Hlt|]. apply Hfirst. lia.
    + intros [|q] Hq; [lra|].
      destruct (Nat.lt_ge_cases q p) as [H|H].
      * apply Qlt_le_weak, Hfirst, H.
      * apply Hmin. lia.
Qed.

Lemma argmin_unique l k :
  (k < length l)%nat ->
  (forall q, (q < length l)%nat -> q <> k -> nth k l 0 < nth q l 0) ->
  argmin l = k.
Proof.
  intros Hk Hstrict.
  assert (Hne : l <> []) by (destruct l; [simpl in Hk; lia|discriminate]).
  destruct (argmin_spec l Hne) as (Hr & _ & Hmin).
  destruct (Nat.eq_dec (argmin l) k) as [H|H]; [exact H|].
  exfalso. pose proof (Hstrict (argmin l) Hr H). pose proof (Hmin k Hk). lra.
Qed.

Lemma nth_distance (d : frame) (target : Q) q :
  (q < length (time d))%nat ->
  nth q (map (fun t => Qabs (t - target)) (time d)) 0
  = Qabs (sample_time d q - target).
Proof.
  intro H. unfold sample_time.
  rewrite (nth_indep _ 0 (Qabs (0 - target))) by (rewrite length_map; exact H).
  apply (map_nth (fun t => Qabs (t - target))).
Qed.

(** The row used for the direction is a row of the sheet, no row is
    nearer in time to the end, and every earlier row is strictly
    farther. *)
Theorem nearest_index_is_first_nearest (d : frame) (end_time : Q) :
  time d <> [] ->
  let r := nearest_index d end_time in
  (r < length (time d))%nat /\
  (forall q, (q < length (time d))%nat ->
     Qabs (sample_time d r - end_time) <= Qabs (sample_time d q - end_time)) /\
  (forall q, (q < r)%nat ->
     Qabs (sample_time d r - end_time) < Qabs (sample_time d q - end_time)).
Proof.
  intros Hne r. subst r. unfold nearest_index.
  set (l := map (fun t => Qabs (t - end_time)) (time d)).
  assert (Hl : length l = length (time d)) by (subst l; apply length_map).
  assert (Hne' : l <> []).
  { intro H. apply Hne. destruct (time d); [reflexivity|].
    subst l. discriminate. }
  destruct (argmin_spec l Hne') as (Hr & Hfirst & Hmin).
  rewrite Hl in Hr. split; [exact Hr|]. split.
  - intros q Hq. rewrite <- !nth_distance by assumption.
    apply Hmin. rewrite Hl. exact Hq.
  - intros q Hq. rewrite <- !nth_distance by lia. apply Hfirst, Hq.
Qed.

Lemma nearest_index_is_first_nearest_witness :
  (nearest_index (sheet_frame short_pulse_sheet) 0.013 < 30)%nat /\
  (forall q, (q < 30)%nat ->
     Qabs (sample_time (sheet_frame short_pulse_sheet)
             (nearest_index (sheet_frame short_pulse_sheet) 0.013) - 0.013)
     <= Qabs (sample_time (sheet_frame short_pulse_sheet) q - 0.013)) /\
  (forall q, (q < nearest_index (sheet_frame short_pulse_sheet) 0.013)%nat ->
     Qabs (sample_time (sheet_frame short_pulse_sheet)
             (nearest_index (sheet_frame short_pulse_sheet) 0.013) - 0.013)
     < Qabs (sample_time (sheet_frame short_pulse_sheet) q - 0.013)).
Proof.
  apply (nearest_index_is_first_nearest (sheet_frame short_pulse_sheet) 0.013).
  vm_compute. discriminate.
Defined.

Lemma time_of_shift k : time_of (k + 25) - time_advance == time_of k.
Proof.
  unfold time_of, time_interval, time_advance, Qeq. simpl. lia.
Qed.

Lemma time_of_early j :
  (j < 25)%nat -> time_of j - time_advance < time_of 0.
Proof.
  unfold time_of, time_interval, time_advance, Qlt. simpl. lia.
Qed.

(** On a sheet, the row nearest to the end of an event closed by row [j]
    is row [j - 25], and row 0 when [j] is below 25: the direction is read
    from the smoothed values 25 rows before the closing row. *)
Theorem nearest_index_25_rows_back (d : frame) (j : nat) :
  timed d -> (j < length (time d))%nat ->
  nearest_index d (sample_time d j - time_advance) = (j - 25)%nat.
Proof.
  intros Ht Hj. rewrite (Ht j Hj). unfold nearest_index.
  apply argmin_unique.
  - rewrite length_map. lia.
  - intros q Hq Hne. rewrite length_map in Hq.
    rewrite !nth_distance by lia.
    rewrite (Ht q Hq), (Ht (j - 25)%nat) by lia.
    destruct (Nat.lt_ge_cases j 25) as [Hearly|Hlate].
    + replace (j - 25)%nat with 0%nat in * by lia.
      pose proof (time_of_early j Hearly) as He.
      assert (Hq0 : time_of 0 < time_of q) by (apply time_of_lt; lia).
      apply Qabs_case; intros; apply Qabs_case; intros; lra.
    + pose proof (time_of_shift (j - 25)) as Hs.
      replace (j - 25 + 25)%nat with j in Hs by lia.
      destruct (Nat.lt_total q (j - 25)) as [H|[H|H]]; [|lia|];
        apply time_of_lt in H;
        apply Qabs_case; intros; apply Qabs_case; intros; lra.
Qed.

Lemma nearest_index_25_rows_back_witness :
  nearest_index (sheet_frame long_vertical_sheet)
    (sample_time (sheet_frame long_vertical_sheet) 301 - time_advance)
  = (301 - 25)%nat.
Proof.
  apply (nearest_index_25_rows_back (sheet_frame long_vertical_sheet) 301).
  - apply timed_make_frame.
  - vm_compute. lia.
Defined.

(** ** The smoother and the raw channels *)

Lemma observations_missing w :
  In NaN w -> (length (observations w) < length w)%nat.
Proof.
  induction w as [|[|q] w IH]; simpl; intro H.
  - contradiction.
  - pose proof (length_observations w). lia.
  - destruct H as [H|H]; [discriminate|]. specialize (IH H). lia.
Qed.

Lemma roll_mean_few w l :
  (length (observations l) < w)%nat -> roll_mean w l = NaN.
Proof.
  intro H. unfold roll_mean.
  destruct (w <=? length (observations l))%nat eqn:E; [|reflexivity].
  apply Nat.leb_le in E. lia.
Qed.

(** A missing cell of a channel leaves the smoothed channel missing on
    every row within [h] rows of it, for the window [2h + 1]. *)
Theorem missing_cell_blanks_window (data : list num) (h k i : nat) :
  nth_error data k = Some NaN ->
  (i <= k + h)%nat -> (k <= i + h)%nat ->
  nth i (moving_average data (2 * h + 1)) NaN = NaN.
Proof.
  intros Hk H1 H2.
  assert (Hkn : (k < length data)%nat).
  { apply nth_error_Some. rewrite Hk. discriminate. }
  destruct (Nat.lt_ge_cases i (length data)) as [Hi|Hi].
  2: { apply nth_overflow. rewrite length_moving_average. exact Hi. }
  rewrite nth_moving_average by exact Hi.
  apply roll_mean_few.
  assert (Hin : In NaN (window_slice data (2 * h + 1) i)).
  { unfold window_slice. rewrite half_window.
    apply (nth_error_In _ (k - (i - h))).
    rewrite nth_error_firstn, nth_error_skipn.
    replace (Nat.min (i + 1 + h - (2 * h + 1)) (length data)) with (i - h)%nat
      by lia.
    replace (k - (i - h) <? Nat.min (i + 1 + h) (length data) - (i - h))%nat
      with true by (symmetry; apply Nat.ltb_lt; lia).
    replace (i - h + (k - (i - h)))%nat with k by lia. exact Hk. }
  pose proof (observations_missing _ Hin) as Ho.
  pose proof (length_window_slice data (2 * h + 1) i) as Hw.
  rewrite half_window in Hw. lia.
Qed.

Lemma missing_cell_blanks_window_witness :
  nth 2 (moving_average [Fin 1; Fin 2; Fin 3; NaN; Fin 5; Fin 6; Fin 7] 3) NaN
  = NaN.
Proof.
  apply (missing_cell_blanks_window
           [Fin 1; Fin 2; Fin 3; NaN; Fin 5; Fin 6; Fin 7] 1 3 2).
  - reflexivity.
  - lia.
  - lia.
Defined.

(** ** The header *)

Lemma is_space_lower c : is_space (lower_ascii c) = is_space c.
Proof.
  destruct c as [[] [] [] [] [] [] [] []]; reflexivity.
Qed.

Lemma lower_lstrip s : lower (lstrip s) = lstrip (lower s).
Proof.
  induction s as [|c s IH]; [reflexivity|]. simpl.
  rewrite is_space_lower. destruct (is_space c); [exact IH|reflexivity].
Qed.

Lemma lower_rstrip s : lower (rstrip s) = rstrip (lower s).
Proof.
  induction s as [|c s IH]; [reflexivity|]. simpl.
  rewrite <- IH, is_space_lower.
  destruct (rstrip s); simpl; [destruct (is_space c)|]; reflexivity.
Qed.

Lemma lower_strip s : lower (strip s) = strip (lower s).
Proof.
  unfold strip. rewrite lower_rstrip, lower_lstrip. reflexivity.
Qed.

Lemma lstrip_blank s : blank s = true -> lstrip s = EmptyString.
Proof.
  induction s as [|c s IH]; [reflexivity|]. simpl.
  destruct (is_space c); [exact IH|discriminate].
Qed.

Lemma rstrip_blank s : blank s = true -> rstrip s = EmptyString.
Proof.
  induction s as [|c s IH]; [reflexivity|]. simpl.
  destruct (is_space c); [|discriminate]. simpl. intro H.
  rewrite (IH H). reflexivity.
Qed.

Lemma lstrip_pad pad s : blank pad = true -> lstrip (pad ++ s) = lstrip s.
Proof.
  induction pad as [|c pad IH]; [reflexivity|]. simpl.
  destruct (is_space c); [exact IH|discriminate].
Qed.

Lemma rstrip_pad s pad : blank pad = true -> rstrip (s ++ pad) = rstrip s.
Proof.
  intro H. induction s as [|c s IH]; simpl.
  - apply rstrip_blank, H.
  - rewrite IH. reflexivity.
Qed.

Lemma strip_pad left_pad core right_pad :
  blank left_pad = true -> blank right_pad = true ->
  strip (left_pad ++ core ++ right_pad) = strip core.
Proof.
  intros Hl Hr. unfold strip. rewrite (lstrip_pad _ _ Hl).
  induction core as [|c core IH]; simpl.
  - rewrite (lstrip_blank _ Hr). reflexivity.
  - destruct (is_space c); [exact IH|].
    apply (rstrip_pad (String c core) right_pad Hr).
Qed.

Lemma same_header_clean c c' :
  same_header c c' -> lower (strip c) = lower (strip c').
Proof.
  intros (l & core & r & Hl & Hr & -> & Hc).
  rewrite (strip_pad l core r Hl Hr), !lower_strip, Hc. reflexivity.
Qed.

(** With a plain header the analysis does not depend on how the labels
    are spelled: a sheet whose labels agree with it one by one up to outer
    whitespace and ASCII case, over the same rows, gives the same result. *)
Theorem header_spelling_irrelevant (cols cols' : list string)
    (body : list (list num)) :
  plain_header cols ->
  Forall2 same_header cols cols' ->
  analyze {| columns := cols; rows := body |}
  = analyze {| columns := cols'; rows := body |}.
Proof.
  intros _ H.
  assert (E : clean_columns cols = clean_columns cols').
  { induction H as [|c c' l l' Hc _ IH]; [reflexivity|]. simpl.
    rewrite (same_header_clean c c' Hc), IH. reflexivity. }
  unfold analyze. simpl. rewrite E. reflexivity.
Qed.

Lemma header_spelling_irrelevant_witness :
  analyze {| columns := sheet_columns; rows := rows long_vertical_sheet |}
  = analyze {| columns := required_columns; rows := rows long_vertical_sheet |}.
Proof.
  apply (header_spelling_irrelevant sheet_columns required_columns).
  { apply plain_header_check. vm_compute. reflexivity. }
  unfold sheet_columns, required_columns.
  repeat constructor.
  - exists ""%string, "Voltage"%string, ""%string. repeat split.
  - exists ""%string, "Voltage_0"%string, ""%string. repeat split.
  - exists " "%string, "Voltage (DC voltage)"%string, ""%string. repeat split.
  - exists ""%string, "Voltage_0 (DC voltage)"%string, " "%string. repeat split.
  - exists ""%string, "Voltage (Positive peak)"%string, ""%string. repeat split.
  - exists ""%string, "Voltage_0 (Negative peak)"%string, ""%string. repeat split.
  - exists ""%string, "Voltage_0 (Positive peak)"%string, ""%string. repeat split.
Defined.

(** ** The session loop *)

Lemma list_length_ind {A : Type} (P : list A -> Prop) :
  (forall l, (forall l', (length l' < length l)%nat -> P l') -> P l) ->
  forall l, P l.
Proof.
  intros H l.
  assert (G : forall n l, (length l < n)%nat -> P l).
  { induction n as [|n IH]; intros l' Hl; [lia|].
    apply H. intros l'' Hl''. apply IH. lia. }
  apply (G (S (length l))). lia.
Qed.

Lemma calls_app a b : calls (a ++ b) = calls a ++ calls b.
Proof. apply flat_map_app. Qed.

Lemma calls_guarded analysis f o :
  calls (guarded_call analysis f o) = [(f, o)].
Proof.
  unfold guarded_call. destruct (analysis f o); reflexivity.
Qed.

Lemma calls_Input prompt l : calls (Input prompt :: l) = calls l.
Proof. reflexivity. Qed.

Lemma calls_Print text l : calls (Print text :: l) = calls l.
Proof. reflexivity. Qed.

Ltac push_calls :=
  repeat (rewrite calls_app || rewrite calls_Input || rewrite calls_Print
          || rewrite calls_guarded).

(** Whether the analysis returns or raises has no influence on the rest
    of the session: the files analysed, the output paths used and the way
    the session ends are the same for any two behaviours of the
    analysis. *)
Theorem session_ignores_analysis_outcome
    (analysis analysis' : string -> string -> option string)
    (default_output_path : option string) (inputs : list string) :
  calls (fst (session analysis default_output_path inputs))
  = calls (fst (session analysis' default_output_path inputs)) /\
  snd (session analysis default_output_path inputs)
  = snd (session analysis' default_output_path inputs).
Proof.
  revert default_output_path.
  induction inputs as [inputs IH] using list_length_ind.
  intros d. destruct inputs as [|choice rest]; [split; reflexivity|].
  cbn -[guarded_call menu calls]. destruct (String.eqb choice "1").
  { destruct rest as [|file_path rest1]; [split; reflexivity|].
    destruct (usable d) as [out|].
    - destruct (IH rest1 ltac:(simpl; lia) d) as [Hc He].
      destruct (session analysis d rest1) as [tr e].
      destruct (session analysis' d rest1) as [tr' e'].
      cbn [fst snd] in *. push_calls. rewrite Hc. now split.
    - destruct rest1 as [|out rest2]; [split; reflexivity|].
      destruct (IH rest2 ltac:(simpl; lia) d) as [Hc He].
      destruct (session analysis d rest2) as [tr e].
      destruct (session analysis' d rest2) as [tr' e'].
      cbn [fst snd] in *. push_calls. rewrite Hc. now split. }
  destruct (String.eqb choice "2").
  { destruct rest as [|path rest1]; [split; reflexivity|].
    destruct (IH rest1 ltac:(simpl; lia) (Some path)) as [Hc He].
    destruct (session analysis (Some path) rest1) as [tr e].
    destruct (session analysis' (Some path) rest1) as [tr' e'].
    cbn [fst snd] in *. push_calls. rewrite Hc. now split. }
  destruct (String.eqb choice "3"); [split; reflexivity|].
  destruct (IH rest ltac:(simpl; lia) d) as [Hc He].
  destruct (session analysis d rest) as [tr e].
  destruct (session analysis' d rest) as [tr' e'].
  cbn [fst snd] in *. push_calls. rewrite Hc. now split.
Qed.

(** A default output path set to the empty text is no default at all: the
    session goes on exactly as with none, asking for the output path at
    every analysis. *)
Theorem empty_default_is_none
    (analysis : string -> string -> option string) (inputs : list string) :
  session analysis (Some EmptyString) inputs = session analysis None inputs.
Proof.
  induction inputs as [inputs IH] using list_length_ind.
  destruct inputs as [|choice rest]; [reflexivity|].
  cbn -[guarded_call menu calls]. destruct (String.eqb choice "1").
  { destruct rest as [|file_path rest1]; [reflexivity|].
    destruct rest1 as [|out rest2]; [reflexivity|].
    rewrite (IH rest2) by (simpl; lia). reflexivity. }
  destruct (String.eqb choice "2"); [reflexivity|].
  destruct (String.eqb choice "3"); [reflexivity|].
  rewrite (IH rest) by (simpl; lia). reflexivity.
Qed.

(** The session ends normally only through the choice 3: on a console
    that never types "3" it stops when the input runs out. *)
Theorem session_ends_only_by_choice_3
    (analysis : string -> string -> option string)
    (default_output_path : option string) (inputs : list string) :
  ~ In "3"%string inputs ->
  snd (session analysis default_output_path inputs) = EndOfInput.
Proof.
  revert default_output_path.
  induction inputs as [inputs IH] using list_length_ind.
  intros d Hno. destruct inputs as [|choice rest]; [reflexivity|].
  cbn -[guarded_call menu calls]. destruct (String.eqb choice "1").
  { destruct rest as [|file_path rest1]; [reflexivity|].
    destruct (usable d) as [out|].
    - specialize (IH rest1 ltac:(simpl; lia) d).
      destruct (session analysis d rest1) as [tr e]. cbn [fst snd] in *.
      apply IH. simpl in Hno. tauto.
    - destruct rest1 as [|out rest2]; [reflexivity|].
      specialize (IH rest2 ltac:(simpl; lia) d).
      destruct (session analysis d rest2) as [tr e]. cbn [fst snd] in *.
      apply IH. simpl in Hno. tauto. }
  destruct (String.eqb choice "2").
  { destruct rest as [|path rest1]; [reflexivity|].
    specialize (IH rest1 ltac:(simpl; lia) (Some path)).
    destruct (session analysis (Some path) rest1) as [tr e]. cbn [fst snd] in *.
    apply IH. simpl in Hno. tauto. }
  destruct (String.eqb choice "3") eqn:E3.
  { apply String.eqb_eq in E3. subst choice. exfalso. apply Hno. now left. }
  specialize (IH rest ltac:(simpl; lia) d).
  destruct (session analysis d rest) as [tr e]. cbn [fst snd] in *.
  apply IH. simpl in Hno. tauto.
Qed.

Lemma session_ends_only_by_choice_3_witness :
  snd (main (fun _ _ => None) ["1"; "in.xlsx"; "out.png"; "x"; "2"]%string)
  = EndOfInput.
Proof.
  apply (session_ends_only_by_choice_3 (fun _ _ => None) None).
  simpl. intros [H|[H|[H|[H|[H|[]]]]]]; discriminate H.
Defined.

(** Once a non-empty default output path is in place, every analysis uses
    it, for as long as the console never types "2". *)
Theorem default_path_is_used
    (analysis : string -> string -> option string) (path : string)
    (inputs : list string) (file_path output_plot_path : string) :
  path <> EmptyString ->
  ~ In "2"%string inputs ->
  In (file_path, output_plot_path)
     (calls (fst (session analysis (Some path) inputs))) ->
  output_plot_path = path.
Proof.
  intros Hp.
  assert (U : usable (Some path) = Some path)
    by (destruct path; [congruence|reflexivity]).
  induction inputs as [inputs IH] using list_length_ind.
  intros Hno. destruct inputs as [|choice rest]; [intros []|].
  cbn -[guarded_call menu calls]. destruct (String.eqb choice "1").
  { destruct rest as [|f rest1]; [intros []|].
    change (match path with
            | EmptyString => None
            | String _ _ => Some path
            end) with (usable (Some path)).
    rewrite U.
    specialize (IH rest1 ltac:(simpl; lia)).
    destruct (session analysis (Some path) rest1) as [tr e]. cbn [fst snd] in *.
    push_calls. change (calls menu) with (@nil (string * string)). simpl.
    intros [H|H]; [congruence|]. apply IH; [simpl in Hno; tauto|exact H]. }
  destruct (String.eqb choice "2") eqn:E2.
  { apply String.eqb_eq in E2. subst choice. exfalso. apply Hno. now left. }
  destruct (String.eqb choice "3"); [intros []|].
  specialize (IH rest ltac:(simpl; lia)).
  destruct (session analysis (Some path) rest) as [tr e]. cbn [fst snd] in *.
  push_calls. change (calls menu) with (@nil (string * string)). simpl.
  apply IH. simpl in Hno. tauto.
Qed.

Lemma default_path_is_used_witness :
  calls (fst (session (fun _ _ => Some "boom"%string) (Some "plots/a.png"%string)
                ["1"; "first.xlsx"; "oops"; "1"; "second.xlsx"; "3"]%string))
  = [("first.xlsx", "plots/a.png"); ("second.xlsx", "plots/a.png")]%string /\
  "plots/a.png"%string = "plots/a.png"%string.
Proof.
  split; [vm_compute; reflexivity|].
  apply (default_path_is_used (fun _ _ => Some "boom"%string) "plots/a.png"
           ["1"; "first.xlsx"; "oops"; "1"; "second.xlsx"; "3"]%string
           "second.xlsx" "plots/a.png").
  - discriminate.
  - simpl. intros [H|[H|[H|[H|[H|[H|[]]]]]]]; discriminate H.
  - vm_compute. tauto.
Defined.

(** ** Consecutive events on a sheet *)

